(** * ThankYou.py: a shallow embedding and its verified properties

    The development follows the layout of [src/ThankYou.py]:
    - [PyStr]: the [str] builtins the program calls ([strip], [split],
      [startswith], [endswith], [replace]);
    - the request model and the IP-aware logger [log_action];
    - the JSON document model and the view counter
      [get_and_increment_views];
    - the view functions and the 404 handler.

    Header values are WSGI strings, one latin-1 code point per character;
    file names and file contents are taken to be valid UTF-8.  Both are
    [string] here: byte-wise comparison of UTF-8 agrees with the code-point
    order Python's [sorted] uses, and the ASCII patterns of the program
    never occur inside a multi-byte sequence.

    Input and output are modelled up to the write step: an open can fail
    (file missing, or refused by the operating system), a text can fail to
    parse, and a write to a file that was opened goes through. *)

From Stdlib Require Import String Ascii List ZArith NArith Lia Bool.
From Stdlib Require Import Sorting.Mergesort Sorting.Sorted Sorting.Permutation.
From Stdlib Require Import Numbers.DecimalString Numbers.DecimalZ.
From Stdlib Require Import Floats.PrimFloat.
Import ListNotations.

Open Scope string_scope.
Open Scope list_scope.

(* ------------------------------------------------------------------ *)
(** ** Python string builtins *)

Module PyStr.

(** [str.isspace] on one character of a latin-1 string: the C0 controls
    TAB..CR, the separators FS..US, SPACE, NEL and NBSP. *)
Definition isspace (c : ascii) : bool :=
  let n := N_of_ascii c in
  (((9 <=? n) && (n <=? 13)) || ((28 <=? n) && (n <=? 32))
   || (n =? 133) || (n =? 160))%N.

Fixpoint lstrip (s : string) : string :=
  match s with
  | EmptyString => EmptyString
  | String c s' => if isspace c then lstrip s' else s
  end.

Fixpoint rstrip (s : string) : string :=
  match s with
  | EmptyString => EmptyString
  | String c s' =>
      match rstrip s' with
      | EmptyString => if isspace c then EmptyString else String c EmptyString
      | r => String c r
      end
  end.

(** [s.strip()] with no argument. *)
Definition strip (s : string) : string := rstrip (lstrip s).

(** [s.split(sep)] for a one-character separator: never the empty list,
    empty fields are kept. *)
Fixpoint split (sep : ascii) (s : string) : list string :=
  match s with
  | EmptyString => [EmptyString]
  | String c s' =>
      if Ascii.eqb c sep then EmptyString :: split sep s'
      else match split sep s' with
           | [] => [String c EmptyString]
           | field :: fields => String c field :: fields
           end
  end.

(** [s.startswith(prefixes)] with a tuple of prefixes. *)
Definition startswith (s : string) (prefixes : list string) : bool :=
  existsb (fun p => prefix p s) prefixes.

(** [s.endswith(suffix)]. *)
Fixpoint endswith (s suffix : string) : bool :=
  String.eqb s suffix
  || match s with
     | EmptyString => false
     | String _ s' => endswith s' suffix
     end.

(** [s.replace(old, new)] for a non-empty [old]: occurrences are found
    left to right and do not overlap.  [skip] counts the characters of
    the occurrence just replaced that are still to be dropped. *)
Fixpoint replace_from (skip : nat) (old new s : string) : string :=
  match s with
  | EmptyString => EmptyString
  | String c s' =>
      match skip with
      | S k => replace_from k old new s'
      | O =>
          if prefix old s
          then new ++ replace_from (String.length old - 1) old new s'
          else String c (replace_from 0 old new s')
      end
  end.

Definition replace (s old new : string) : string := replace_from 0 old new s.

(** Truth value of an [Optional[str]]: [None] and [''] are falsy. *)
Definition truthy (v : option string) : bool :=
  match v with
  | None => false
  | Some EmptyString => false
  | Some (String _ _) => true
  end.

(** [a or b] on [Optional[str]] operands. *)
Definition or_ (a b : option string) : option string :=
  if truthy a then a else b.

(** [next(iterator, None)]. *)
Definition next {A : Type} (it : list A) : option A :=
  match it with
  | [] => None
  | x :: _ => Some x
  end.

(** How an f-string renders an [Optional[str]]. *)
Definition fmt (v : option string) : string :=
  match v with
  | None => "None"
  | Some s => s
  end.

End PyStr.

(* ------------------------------------------------------------------ *)
(** ** Requests and the IP-aware logger *)

(** What a view function can observe of [flask.request] for a GET
    request: the URL path, [request.headers.get] and
    [request.remote_addr]. *)
Record request : Type := mkRequest {
  path : string;
  headers_get : string -> option string;
  remote_addr : option string
}.

Inductive exn : Type :=
| FileNotFoundError
| OSError
| JSONDecodeError
| TypeError
| KeyError (key : string).

(** One call of [logger.info] or [logger.error]. *)
Inductive log_record : Type :=
| INFO (message : string)
| ERROR (message : string) (e : exn).

Definition private_prefixes : list string := ["10."; "172."; "192.168."].

Definition cf_ip (r : request) : option string :=
  headers_get r "CF-Connecting-IP".

Definition x_forwarded_for (r : request) : option string :=
  headers_get r "X-Forwarded-For".

Definition ip_chain (r : request) : list string :=
  match x_forwarded_for r with
  | Some (String c s) => PyStr.split "," (String c s)
  | _ => []
  end.

Definition public_ip (r : request) : option string :=
  PyStr.next
    (map PyStr.strip
       (filter (fun ip => negb (PyStr.startswith (PyStr.strip ip) private_prefixes))
               (ip_chain r))).

(** The filter of [public_ip]: is this entry of the chain passed over? *)
Definition skipped (ip : string) : bool :=
  PyStr.startswith (PyStr.strip ip) private_prefixes.

Definition real_ip (r : request) : option string :=
  PyStr.or_ (PyStr.or_ (cf_ip r) (public_ip r)) (remote_addr r).

Definition log_action (action : string) (r : request) : list log_record :=
  [INFO (action ++ " | Real IP: " ++ PyStr.fmt (real_ip r)
         ++ ", CF-IP: " ++ PyStr.fmt (cf_ip r)
         ++ ", XFF: " ++ PyStr.fmt (x_forwarded_for r)
         ++ ", Remote: " ++ PyStr.fmt (remote_addr r))].

(* ------------------------------------------------------------------ *)
(** ** JSON documents as Python values *)

(** What [json.load] builds: [dict] (insertion-ordered, string keys),
    [list], [str], [int], [float], [bool] and [None].  Python's [int] is
    unbounded, its [float] is IEEE binary64. *)
#[warnings="-register-all"]
Inductive json : Type :=
| JNull
| JBool (b : bool)
| JInt (n : Z)
| JFloat (x : float)
| JStr (s : string)
| JArr (items : list json)
| JObj (members : list (string * json)).

Fixpoint dict_get (members : list (string * json)) (key : string) : option json :=
  match members with
  | [] => None
  | (k, v) :: rest => if String.eqb k key then Some v else dict_get rest key
  end.

(** Assignment to an existing key keeps its position; a new key goes last. *)
Fixpoint dict_set (members : list (string * json)) (key : string) (v : json)
  : list (string * json) :=
  match members with
  | [] => [(key, v)]
  | (k, old) :: rest =>
      if String.eqb k key then (k, v) :: rest
      else (k, old) :: dict_set rest key v
  end.

(** [data[key]]: only a [dict] can be indexed by a string. *)
Definition getitem (data : json) (key : string) : exn + json :=
  match data with
  | JObj members =>
      match dict_get members key with
      | Some v => inr v
      | None => inl (KeyError key)
      end
  | _ => inl TypeError
  end.

(** [data[key] = v], reached only when [data[key]] was read before. *)
Definition setitem (data : json) (key : string) (v : json) : json :=
  match data with
  | JObj members => JObj (dict_set members key v)
  | other => other
  end.

(** [v + 1]: defined on [int], [float] and [bool] (an [int] subtype). *)
Definition add_one (v : json) : exn + json :=
  match v with
  | JInt n => inr (JInt (n + 1))
  | JFloat x => inr (JFloat (PrimFloat.add x 1%float))
  | JBool b => inr (JInt (Z.b2z b + 1))
  | _ => inl TypeError
  end.

(* ------------------------------------------------------------------ *)
(** ** File objects and the error monad of a [with open(...)] block *)

(** An open text file: its contents and the stream position. *)
Record file_object : Type := mkFile {
  buf : string;
  pos : nat
}.

Fixpoint take (n : nat) (s : string) : string :=
  match n, s with
  | S k, String c s' => String c (take k s')
  | _, _ => EmptyString
  end.

Fixpoint drop (n : nat) (s : string) : string :=
  match n, s with
  | S k, String _ s' => drop k s'
  | _, _ => s
  end.

(** A computation on the open file that returns or raises. *)
Definition io (A : Type) : Type := file_object -> (exn + A) * file_object.

Definition ret {A : Type} (a : A) : io A := fun f => (inr a, f).

Definition raise {A : Type} (e : exn) : io A := fun f => (inl e, f).

Definition bind {A B : Type} (m : io A) (k : A -> io B) : io B :=
  fun f =>
    match m f with
    | (inl e, f') => (inl e, f')
    | (inr a, f') => k a f'
    end.

Definition lift {A : Type} (r : exn + A) : io A :=
  match r with
  | inl e => raise e
  | inr a => ret a
  end.

Notation "x <- m ;; k" := (bind m (fun x => k))
  (at level 61, m at next level, right associativity).
Notation "m ;;; k" := (bind m (fun _ => k))
  (at level 61, right associativity).

(** [f.read()]: everything from the position to the end. *)
Definition f_read : io string :=
  fun f => (inr (drop (pos f) (buf f)), mkFile (buf f) (String.length (buf f))).

(** [f.seek(offset)]. *)
Definition f_seek (offset : nat) : io unit :=
  fun f => (inr tt, mkFile (buf f) offset).

(** [f.write(s)]: overwrites from the position on, extends past the end. *)
Definition f_write (s : string) : io unit :=
  fun f =>
    (inr tt,
     mkFile (take (pos f) (buf f) ++ s ++ drop (pos f + String.length s) (buf f))
            (pos f + String.length s)).

(** [f.truncate()]: cuts the file at the position. *)
Definition f_truncate : io unit :=
  fun f => (inr tt, mkFile (take (pos f) (buf f)) (pos f)).

(** [with open(path, "r+") as f: body].  The file must exist; [os_error]
    is the operating system refusing the open for another reason.  Leaving
    the block, normally or by an exception, closes the file, and what was
    written up to then is what the file holds. *)
Definition with_open_rplus {A : Type} (os_error : bool) (file : option string)
  (body : io A) : (exn + A) * option string :=
  match file with
  | None => (inl FileNotFoundError, None)
  | Some text =>
      if os_error then (inl OSError, Some text)
      else let '(r, f) := body (mkFile text 0) in (r, Some (buf f))
  end.

(** [with open(path, "r") as f: body]. *)
Definition with_open_r {A : Type} (file : option string) (body : io A) : exn + A :=
  match file with
  | None => inl FileNotFoundError
  | Some text => fst (body (mkFile text 0))
  end.

(* ------------------------------------------------------------------ *)
(** ** The files of the site *)

Record filesystem : Type := mkFS {
  views_file : option string;            (* Data/views.json *)
  honour_file : option string;           (* Data/honour.json *)
  goodbyes_file : option string;         (* Data/goodbyes.json *)
  diary_listdir : option (list string);  (* os.listdir("diaries"), None when it raises *)
  diary_read : string -> option string   (* open + read of diaries/<name>, None when it raises *)
}.

Definition set_views_file (fs : filesystem) (file : option string) : filesystem :=
  mkFS file (honour_file fs) (goodbyes_file fs) (diary_listdir fs) (diary_read fs).

Record diary_entry : Type := mkEntry {
  title : string;
  content : string
}.

(** Keyword arguments handed to a template. *)
Inductive context : Type :=
| no_context
| entries_json (entries : json)
| entries_diary (entries : list diary_entry).

(** What a view function hands back to the framework. *)
Inductive response : Type :=
| render_template (template_name : string) (ctx : context)
| jsonify (body : json)
| redirect (location : string)
| abort (code : Z).

(** The endpoints registered with [@app.route], one per view function. *)
Inductive endpoint : Type :=
| ep_home | ep_thank_you_page | ep_why_page | ep_honour_wall | ep_diaries_page
| ep_goodbyes_page | ep_views_api | ep_parkour_page | ep_weekly_page
| ep_projects_page.

Definition url_map : list (string * endpoint) :=
  [("/", ep_home); ("/thankyou", ep_thank_you_page); ("/why", ep_why_page);
   ("/honour", ep_honour_wall); ("/diaries", ep_diaries_page);
   ("/goodbyes", ep_goodbyes_page); ("/api/views", ep_views_api);
   ("/parkour", ep_parkour_page); ("/weekly", ep_weekly_page);
   ("/projects", ep_projects_page)].

(** Descending order on file names, for [sorted(..., reverse=True)]. *)
Module DescendingNames <: Orders.TotalLeBool.
Definition t : Type := string.
Definition leb (a b : string) : bool := String.leb b a.
Definition leb_total : forall a b, leb a b = true \/ leb b a = true :=
  fun a b => String.leb_total b a.
End DescendingNames.

Module NameSort := Sort DescendingNames.

Definition sorted_reverse (names : list string) : list string := NameSort.sort names.

(** The document the start-up code writes when [Data/views.json] is
    missing, and the shape every later write keeps. *)
Definition counter_doc (n : Z) : json := JObj [("total_views", JInt n)].

(* ------------------------------------------------------------------ *)
(** ** Concrete collaborators

    The site is verified against any JSON codec, Markdown renderer and URL
    matcher (the variables of section [Site]).  The instances below are
    used to run the model on concrete inputs. *)

Module CounterCodec.

Definition quote : string := String (ascii_of_nat 34) EmptyString.

Definition opening : string := "{" ++ quote ++ "total_views" ++ quote ++ ": ".

(** [json.dumps] on one-member objects with an integer value, on the
    empty array and on [None]; other values are outside this fragment. *)
Definition dumps (data : json) : string :=
  match data with
  | JObj [(k, JInt n)] =>
      "{" ++ quote ++ k ++ quote ++ ": "
      ++ NilZero.string_of_int (Z.to_int n) ++ "}"
  | JArr [] => "[]"
  | _ => "null"
  end.

Fixpoint strip_prefix (p s : string) : option string :=
  match p, s with
  | EmptyString, _ => Some s
  | String a p', String b s' => if Ascii.eqb a b then strip_prefix p' s' else None
  | String _ _, EmptyString => None
  end.

(** The text without its last character, when that character is [last]. *)
Fixpoint chop (last : ascii) (s : string) : option string :=
  match s with
  | EmptyString => None
  | String c EmptyString => if Ascii.eqb c last then Some EmptyString else None
  | String c s' => option_map (String c) (chop last s')
  end.

(** [json.loads] on the texts [dumps] produces for counter documents and
    for the empty array. *)
Definition loads (text : string) : option json :=
  match strip_prefix opening text with
  | None => if String.eqb text "[]" then Some (JArr []) else None
  | Some rest =>
      match chop "}" rest with
      | None => None
      | Some digits =>
          match NilZero.int_of_string digits with
          | None => None
          | Some i => Some (counter_doc (Z.of_int i))
          end
      end
  end.

End CounterCodec.

(** Exact matching of a path against the registered rules. *)
Fixpoint exact_match (rules : list (string * endpoint)) (p : string) : option endpoint :=
  match rules with
  | [] => None
  | (rule, ep) :: rest => if String.eqb rule p then Some ep else exact_match rest p
  end.

(** A stand-in renderer: wraps the text in one paragraph. *)
Definition paragraph (text : string) (extensions : list string) : string :=
  "<p>" ++ text ++ "</p>".

(** A request with the two proxy headers and the peer address given. *)
Definition proxy_headers (cf xff : option string) (name : string) : option string :=
  if String.eqb name "CF-Connecting-IP" then cf
  else if String.eqb name "X-Forwarded-For" then xff
  else None.

Definition request_from (cf xff peer : option string) : request :=
  mkRequest "/" (proxy_headers cf xff) peer.

(** The same request with one header removed. *)
Definition without_header (name : string) (r : request) : request :=
  mkRequest (path r)
            (fun k => if String.eqb k name then None else headers_get r k)
            (remote_addr r).

(** Sample requests. *)
Definition via_edge_proxy : request :=
  request_from (Some "198.51.100.7") (Some "10.0.0.5, 8.8.8.8") (Some "127.0.0.1").

Definition via_private_hop : request :=
  request_from None (Some "10.0.0.5, 8.8.8.8") (Some "127.0.0.1").

Definition direct_peer : request :=
  request_from None None (Some "203.0.113.9").

Definition empty_edge_header : request :=
  request_from (Some "") (Some "8.8.8.8") (Some "127.0.0.1").

Definition empty_first_entry : request :=
  request_from (Some "") (Some " ,8.8.8.8") (Some "127.0.0.1").

Definition via_172_32 : request :=
  request_from None (Some "172.32.0.1, 8.8.8.8") (Some "127.0.0.1").

Definition unknown_path : request :=
  mkRequest "/nope" (proxy_headers None None) (Some "203.0.113.9").

(** Sample file trees: nothing on disk; the tree right after start-up with
    two diary files and one other file; the same tree with one diary file
    unreadable. *)
Definition no_files : filesystem :=
  mkFS None None None None (fun _ => None).

Definition fresh_site : filesystem :=
  mkFS (Some (CounterCodec.dumps (counter_doc 0))) (Some "[]") (Some "[]")
       (Some ["2024-01-01.md"; "notes.txt"; "2024-02-01.md"])
       (fun name => Some ("# " ++ name)%string).

Definition unreadable_diary : filesystem :=
  mkFS (Some (CounterCodec.dumps (counter_doc 0))) (Some "[]") (Some "[]")
       (Some ["2024-01-01.md"; "notes.txt"; "2024-02-01.md"])
       (fun name => if String.eqb name "2024-01-01.md" then None
                    else Some ("# " ++ name)%string).

(** More sample file trees: a counter file that is not JSON, and a
    counter that has reached 41. *)
Definition corrupt_counter : filesystem :=
  mkFS (Some "{oops") (Some "[]") (Some "[]") (Some []) (fun _ => None).

Definition counter_at_41 : filesystem :=
  mkFS (Some (CounterCodec.dumps (counter_doc 41))) None None
       (Some []) (fun _ => None).

(** The tree of [fresh_site] with the directory listed in another order
    and the file that is not Markdown unreadable. *)
Definition listed_otherwise : filesystem :=
  mkFS (Some (CounterCodec.dumps (counter_doc 0))) (Some "[]") (Some "[]")
       (Some ["2024-02-01.md"; "2024-01-01.md"; "notes.txt"])
       (fun name => if String.eqb name "notes.txt" then None
                    else Some ("# " ++ name)%string).

Definition views_request : request :=
  mkRequest "/api/views" (proxy_headers None None) (Some "203.0.113.9").

(** The ANSI escape sequences behind [colorama]'s colour names. *)
Definition ansi (code : string) : string :=
  String (ascii_of_nat 27) ("[" ++ code ++ "m").

Definition ansi_cyan : string := ansi "36".
Definition ansi_yellow : string := ansi "33".
Definition ansi_red : string := ansi "31".
Definition ansi_reset : string := ansi "0".

(* ------------------------------------------------------------------ *)
(** ** The specification's wording, for comparison with the code *)

(** The private forms as the specification lists them: 10.x, 172.16 to
    172.31, 192.168.x, each judged by string prefix. *)
Definition spec_private_prefixes : list string :=
  ["10."; "192.168.";
   "172.16."; "172.17."; "172.18."; "172.19."; "172.20."; "172.21.";
   "172.22."; "172.23."; "172.24."; "172.25."; "172.26."; "172.27.";
   "172.28."; "172.29."; "172.30."; "172.31."].

Definition spec_private_form (entry : string) : bool :=
  PyStr.startswith (PyStr.strip entry) spec_private_prefixes.

(** The first entry of the chain that is not of a listed private form. *)
Definition spec_public_ip (r : request) : option string :=
  PyStr.next
    (map PyStr.strip (filter (fun ip => negb (spec_private_form ip)) (ip_chain r))).

(** The resolution order read by presence: the edge header's value when
    the header is there, else the first non-private entry when there is
    one, else the peer address. *)
Definition spec_real_ip (r : request) : option string :=
  match cf_ip r with
  | Some v => Some v
  | None =>
      match public_ip r with
      | Some entry => Some entry
      | None => remote_addr r
      end
  end.

(** Stripping the file extension: the name without the [.md] suffix the
    listing selected it by. *)
Definition spec_strip_extension (filename : string) : string :=
  take (String.length filename - String.length ".md") filename.

(* ------------------------------------------------------------------ *)
(** ** The site *)

Section Site.

(** [json.loads] and [json.dumps] of the standard library. *)
Variable json_loads : string -> option json.
Variable json_dumps : json -> string.

(** [markdown.markdown(text, extensions=...)]. *)
Variable markdown : string -> list string -> string.

(** The framework's URL map: the view function a path selects, [None] when
    no rule matches and the framework raises [NotFound]. *)
Variable url_match : string -> option endpoint.

(** [json.load(f)] *)
Definition json_load : io json :=
  text <- f_read ;;
  match json_loads text with
  | Some data => ret data
  | None => raise JSONDecodeError
  end.

(** [json.dump(data, f)] *)
Definition json_dump (data : json) : io unit := f_write (json_dumps data).

(** Lines 47-54: each data file is created with its default when missing. *)
Definition ensure_file (file : option string) (default : json) : option string :=
  match file with
  | None => Some (json_dumps default)
  | Some text => Some text
  end.

Definition startup (fs : filesystem) : filesystem :=
  mkFS (ensure_file (views_file fs) (counter_doc 0))
       (ensure_file (honour_file fs) (JArr []))
       (ensure_file (goodbyes_file fs) (JArr []))
       (diary_listdir fs) (diary_read fs).

(** The body of the [with] block of [get_and_increment_views]. *)
Definition increment_block : io json :=
  data <- json_load ;;
  v <- lift (getitem data "total_views") ;;
  v' <- lift (add_one v) ;;
  let data := setitem data "total_views" v' in
  f_seek 0 ;;;
  json_dump data ;;;
  f_truncate ;;;
  ret data.

(** The [try] part of [get_and_increment_views]: the [with] block, then
    [return data["total_views"]]. *)
Definition try_increment (os_error : bool) (fs : filesystem)
  : (exn + json) * filesystem :=
  let '(r, file) := with_open_rplus os_error (views_file fs) increment_block in
  (match r with
   | inl e => inl e
   | inr data => getitem data "total_views"
   end,
   set_views_file fs file).

Definition get_and_increment_views (os_error : bool) (fs : filesystem)
  : json * list log_record * filesystem :=
  match try_increment os_error fs with
  | (inr views, fs') => (views, [], fs')
  | (inl e, fs') => (JInt (-1), [ERROR "Error updating views: " e], fs')
  end.

(** What every view function yields: the response, the log records it
    emitted, and the files after it ran. *)
Definition outcome : Type := response * list log_record * filesystem.

Definition home (fs : filesystem) (r : request) : outcome :=
  (render_template "home.html" no_context, log_action "Viewed Home Page" r, fs).

Definition thank_you_page (fs : filesystem) (r : request) : outcome :=
  (render_template "thankyou.html" no_context,
   log_action "Viewed Thank You Page" r, fs).

Definition why_page (fs : filesystem) (r : request) : outcome :=
  (render_template "why.html" no_context, log_action "Viewed Why Page" r, fs).

(** A failed load is logged and degrades to the empty list. *)
Definition honour_wall (fs : filesystem) (r : request) : outcome :=
  match with_open_r (honour_file fs) json_load with
  | inr entries =>
      (render_template "honour.html" (entries_json entries),
       log_action "Viewed Honour Wall" r, fs)
  | inl e =>
      (render_template "honour.html" (entries_json (JArr [])),
       ERROR "Error loading honour.json: " e :: log_action "Viewed Honour Wall" r,
       fs)
  end.

(** The [for] loop of [diaries_page]; [entries] is the list built so far. *)
Fixpoint diaries_loop (fs : filesystem) (filenames : list string)
  (entries : list diary_entry) : exn + list diary_entry :=
  match filenames with
  | [] => inr entries
  | filename :: rest =>
      if PyStr.endswith filename ".md" then
        match diary_read fs filename with
        | None => inl OSError
        | Some md_content =>
            let html_content := markdown md_content ["fenced_code"; "codehilite"] in
            diaries_loop fs rest
              (entries ++ [mkEntry (PyStr.replace filename ".md" "") html_content])
        end
      else diaries_loop fs rest entries
  end.

Definition diaries_page (fs : filesystem) (r : request) : outcome :=
  match
    match diary_listdir fs with
    | None => inl OSError
    | Some names => diaries_loop fs (sorted_reverse names) []
    end
  with
  | inr entries =>
      (render_template "diaries.html" (entries_diary entries),
       log_action "Viewed Diaries Page" r, fs)
  | inl e => (abort 500, [ERROR "Error loading diaries: " e], fs)
  end.

Definition goodbyes_page (fs : filesystem) (r : request) : outcome :=
  match with_open_r (goodbyes_file fs) json_load with
  | inr entries =>
      (render_template "goodbyes.html" (entries_json entries),
       log_action "Viewed Goodbyes Page" r, fs)
  | inl e =>
      (render_template "goodbyes.html" (entries_json (JArr [])),
       ERROR "Error loading goodbyes.json: " e
         :: log_action "Viewed Goodbyes Page" r,
       fs)
  end.

Definition views_api (os_error : bool) (fs : filesystem) (r : request) : outcome :=
  let '(views, errors, fs') := get_and_increment_views os_error fs in
  (jsonify (JObj [("total_views", views)]),
   errors ++ log_action "Viewed /api/views" r, fs').

Definition parkour_page (fs : filesystem) (r : request) : outcome :=
  (render_template "parkour.html" no_context,
   log_action "Viewed Parkour Page" r, fs).

Definition weekly_page (fs : filesystem) (r : request) : outcome :=
  (render_template "weekly.html" no_context,
   log_action "Viewed Weekly Page" r, fs).

Definition projects_page (fs : filesystem) (r : request) : outcome :=
  (render_template "projects.html" no_context,
   log_action "Viewed Projects Page" r, fs).

(** [@app.errorhandler(404)] *)
Definition page_not_found (fs : filesystem) (r : request) : outcome :=
  (redirect "/", log_action "404 Redirect" r, fs).

Definition view_function (ep : endpoint) (os_error : bool)
  : filesystem -> request -> outcome :=
  match ep with
  | ep_home => home
  | ep_thank_you_page => thank_you_page
  | ep_why_page => why_page
  | ep_honour_wall => honour_wall
  | ep_diaries_page => diaries_page
  | ep_goodbyes_page => goodbyes_page
  | ep_views_api => views_api os_error
  | ep_parkour_page => parkour_page
  | ep_weekly_page => weekly_page
  | ep_projects_page => projects_page
  end.

(** One request through the application: the matched view function, or
    the 404 handler when nothing matches. *)
Definition handle_request (os_error : bool) (fs : filesystem) (r : request) : outcome :=
  match url_match (path r) with
  | Some ep => view_function ep os_error fs r
  | None => page_not_found fs r
  end.

(** A run of the views endpoint: one [os_error] flag per call.  Yields
    what each call returned and logged, oldest first, and the files at the
    end. *)
Fixpoint run_views (schedule : list bool) (fs : filesystem)
  : list (json * list log_record) * filesystem :=
  match schedule with
  | [] => ([], fs)
  | os_error :: later =>
      let '(views, errors, fs') := get_and_increment_views os_error fs in
      let '(results, fs'') := run_views later fs' in
      ((views, errors) :: results, fs'')
  end.

(** A call completed when it left the [try] block without an exception,
    that is, when it logged no error. *)
Definition completed (result : json * list log_record) : bool :=
  match snd result with
  | [] => true
  | _ :: _ => false
  end.

(** Why the [try] block of [get_and_increment_views] raises, in the order
    the block meets the causes. *)
Inductive increment_fails (os_error : bool) (fs : filesystem) : exn -> Prop :=
| fails_missing :
    views_file fs = None ->
    increment_fails os_error fs FileNotFoundError
| fails_refused text :
    views_file fs = Some text -> os_error = true ->
    increment_fails os_error fs OSError
| fails_parse text :
    views_file fs = Some text -> os_error = false ->
    json_loads text = None ->
    increment_fails os_error fs JSONDecodeError
| fails_not_object text data :
    views_file fs = Some text -> os_error = false ->
    json_loads text = Some data -> (forall members, data <> JObj members) ->
    increment_fails os_error fs TypeError
| fails_no_field text members :
    views_file fs = Some text -> os_error = false ->
    json_loads text = Some (JObj members) ->
    dict_get members "total_views" = None ->
    increment_fails os_error fs (KeyError "total_views")
| fails_not_number text members v :
    views_file fs = Some text -> os_error = false ->
    json_loads text = Some (JObj members) ->
    dict_get members "total_views" = Some v ->
    add_one v = inl TypeError ->
    increment_fails os_error fs TypeError.

(** The counter a reader of [Data/views.json] would see. *)
Definition stored_total_views (fs : filesystem) : option json :=
  match views_file fs with
  | None => None
  | Some text =>
      match json_loads text with
      | Some (JObj members) => dict_get members "total_views"
      | _ => None
      end
  end.

(** Does this log record carry the given action label? *)
Definition tagged (action : string) (rec : log_record) : bool :=
  match rec with
  | INFO message => prefix (action ++ " | ") message
  | ERROR _ _ => false
  end.

(** How many calls of a run completed. *)
Definition completions (results : list (json * list log_record)) : Z :=
  Z.of_nat (List.length (filter completed results)).

(** What the counter needs of the codec: a counter document that was
    dumped loads back as itself. *)
Definition counter_round_trip : Prop :=
  forall n, (0 <= n)%Z -> json_loads (json_dumps (counter_doc n)) = Some (counter_doc n).

(** The entry the loop of [diaries_page] appends for a file it could read. *)
Definition entry_for (fs : filesystem) (filename : string) (e : diary_entry) : Prop :=
  title e = PyStr.replace filename ".md" ""
  /\ exists md_content,
       diary_read fs filename = Some md_content
       /\ content e = markdown md_content ["fenced_code"; "codehilite"].

(** ** The console formatter *)

(** The colour codes of [colorama]: [Fore.CYAN], [Fore.YELLOW], [Fore.RED]
    and [Style.RESET_ALL]. *)
Variable Fore_CYAN Fore_YELLOW Fore_RED Style_RESET_ALL : string.

(** The attributes of a [logging.LogRecord] the two formatters read. *)
Record LogRecord : Type := mkLogRecord {
  asctime : string;
  levelno : Z;
  levelname : string;
  message : string
}.

Definition logging_INFO : Z := 20.
Definition logging_WARNING : Z := 30.
Definition logging_ERROR : Z := 40.

(** [logging.Formatter("%(asctime)s [%(levelname)s] %(message)s").format],
    the line of the file sink. *)
Definition Formatter_format (record : LogRecord) : string :=
  asctime record ++ " [" ++ levelname record ++ "] " ++ message record.

(** [ColorFormatter.format], the line of the console sink. *)
Definition ColorFormatter_format (record : LogRecord) : string :=
  let msg := Formatter_format record in
  if (levelno record =? logging_INFO)%Z then Fore_CYAN ++ msg ++ Style_RESET_ALL
  else if (levelno record =? logging_WARNING)%Z then Fore_YELLOW ++ msg ++ Style_RESET_ALL
  else if (levelno record =? logging_ERROR)%Z then Fore_RED ++ msg ++ Style_RESET_ALL
  else msg.

Definition page_view_record : LogRecord :=
  mkLogRecord "2024-02-01 10:00:00,000" logging_INFO "INFO" "Viewed Home Page".

(** ** Notions used to state properties *)

(** [c in s] for a character. *)
Fixpoint occurs (c : ascii) (s : string) : bool :=
  match s with
  | EmptyString => false
  | String d s' => Ascii.eqb d c || occurs c s'
  end.

(** [s.count(c)] for a character. *)
Fixpoint count_char (c : ascii) (s : string) : nat :=
  match s with
  | EmptyString => 0
  | String d s' => (if Ascii.eqb d c then 1 else 0) + count_char c s'
  end.

(** [sep.join(fields)]. *)
Fixpoint join (sep : string) (fields : list string) : string :=
  match fields with
  | [] => EmptyString
  | [field] => field
  | field :: rest => field ++ sep ++ join sep rest
  end.

(** No whitespace in front: the string is empty or starts with a
    character that is not whitespace. *)
Definition no_leading_space (s : string) : Prop :=
  match s with
  | EmptyString => True
  | String c _ => PyStr.isspace c = false
  end.

Definition is_markdown (filename : string) : bool := PyStr.endswith filename ".md".


(* ================================================================== *)
(** * Properties *)

(** ** Iterators and string builtins *)

(** [next] over a filtered, mapped list yields the image of the first
    element that passes the filter. *)
Lemma next_map_filter_Some {A B : Type} (f : A -> B) (keep : A -> bool)
  (l : list A) (b : B) :
  PyStr.next (map f (filter keep l)) = Some b <->
  exists before x after,
    l = before ++ x :: after
    /\ Forall (fun y => keep y = false) before
    /\ keep x = true /\ b = f x.
Proof.
  induction l as [|a l IH]; simpl.
  - split; [discriminate|].
    intros (before & x & after & Hl & _). destruct before; discriminate.
  - destruct (keep a) eqn:Ka; simpl.
    + split.
      * intros [= <-]. exists [], a, l. repeat split; auto.
      * intros (before & x & after & Hl & Hb & Hx & ->).
        destruct before as [|y before]; simpl in Hl.
        -- injection Hl as -> _. reflexivity.
        -- injection Hl as -> _. inversion Hb; congruence.
    + rewrite IH. split.
      * intros (before & x & after & -> & Hb & Hx & ->).
        exists (a :: before), x, after. repeat split; auto.
      * intros (before & x & after & Hl & Hb & Hx & ->).
        destruct before as [|y before]; simpl in Hl.
        -- injection Hl as -> _. congruence.
        -- injection Hl as -> ->. inversion Hb; subst.
           exists before, x, after. repeat split; auto.
Qed.

Lemma next_map_filter_None {A B : Type} (f : A -> B) (keep : A -> bool)
  (l : list A) :
  PyStr.next (map f (filter keep l)) = None <->
  Forall (fun y => keep y = false) l.
Proof.
  induction l as [|a l IH]; simpl.
  - split; auto.
  - destruct (keep a) eqn:Ka; simpl.
    + split; [discriminate|]. intros H; inversion H; congruence.
    + rewrite IH. split; [auto|]. intros H; inversion H; auto.
Qed.

Lemma startswith_private_prefixes (s : string) :
  PyStr.startswith s private_prefixes = true <->
  prefix "10." s = true \/ prefix "172." s = true \/ prefix "192.168." s = true.
Proof.
  unfold PyStr.startswith, private_prefixes. cbn [existsb].
  destruct (prefix "10." s), (prefix "172." s), (prefix "192.168." s);
    cbn [orb]; split; auto; intros [H | [H | H]]; discriminate.
Qed.

Lemma ip_chain_split (r : request) (xff : string) :
  x_forwarded_for r = Some xff -> xff <> "" ->
  ip_chain r = PyStr.split "," xff.
Proof.
  intros H Hne. unfold ip_chain. rewrite H.
  destruct xff; [contradiction|reflexivity].
Qed.

Lemma ip_chain_no_header (r : request) :
  x_forwarded_for r = None \/ x_forwarded_for r = Some "" -> ip_chain r = [].
Proof. unfold ip_chain. intros [-> | ->]; reflexivity. Qed.

Lemma truthy_false (v : option string) :
  PyStr.truthy v = false <-> v = None \/ v = Some "".
Proof.
  destruct v as [[|c s]|]; simpl; split; auto; try discriminate.
  intros [H|H]; discriminate.
Qed.

(** ** IP attribution *)

Lemma public_ip_filter (r : request) :
  public_ip r =
  PyStr.next (map PyStr.strip (filter (fun ip => negb (skipped ip)) (ip_chain r))).
Proof. reflexivity. Qed.

(** C1 (amended).  An entry of the forwarded-for chain is skipped exactly
    when, with surrounding whitespace removed, it starts with "10.",
    "172." (any second octet) or "192.168.".  The chain is the
    comma-separated list of a non-empty header and is empty otherwise.  For
    every chain the public IP is the first entry that is not skipped, with
    its whitespace removed, and there is none exactly when every entry is
    skipped. *)
Theorem C1_first_unskipped_entry (r : request) :
  (forall ip,
      skipped ip = true <->
      prefix "10." (PyStr.strip ip) = true
      \/ prefix "172." (PyStr.strip ip) = true
      \/ prefix "192.168." (PyStr.strip ip) = true)
  /\ (forall xff,
         x_forwarded_for r = Some xff -> xff <> "" ->
         ip_chain r = PyStr.split "," xff)
  /\ (x_forwarded_for r = None \/ x_forwarded_for r = Some "" -> ip_chain r = [])
  /\ (forall e,
         public_ip r = Some e <->
         exists before entry after,
           ip_chain r = before ++ entry :: after
           /\ Forall (fun ip => skipped ip = true) before
           /\ skipped entry = false
           /\ e = PyStr.strip entry)
  /\ (public_ip r = None <-> Forall (fun ip => skipped ip = true) (ip_chain r)).
Proof.
  split; [|split; [|split; [|split]]].
  - intros ip. apply startswith_private_prefixes.
  - apply ip_chain_split.
  - apply ip_chain_no_header.
  - intros e. rewrite public_ip_filter, next_map_filter_Some.
    split; intros (before & entry & after & Hs & Hb & He & ->);
      exists before, entry, after; repeat split; auto.
    + eapply Forall_impl; [|exact Hb]. cbv beta.
      intros a Ha. now apply negb_false_iff in Ha.
    + now apply negb_true_iff in He.
    + eapply Forall_impl; [|exact Hb]. cbv beta.
      intros a Ha. now apply negb_false_iff.
    + now apply negb_true_iff.
  - rewrite public_ip_filter, next_map_filter_None.
    split; intros H; (eapply Forall_impl; [|exact H]); cbv beta; intros a Ha.
    + now apply negb_false_iff in Ha.
    + now apply negb_false_iff.
Qed.

(** C3 (amended).  The logged IP is the edge-proxy header's value when
    that header is present and non-empty; otherwise the public entry of the
    forwarded-for chain when there is one and it is non-empty; otherwise
    the peer address.  With no edge-proxy header, "10.0.0.5, 8.8.8.8"
    resolves to 8.8.8.8, and with no proxy header at all the peer address
    is logged. *)
Theorem C3_resolution_order (r : request) :
  (forall v, cf_ip r = Some v -> v <> "" -> real_ip r = Some v)
  /\ (cf_ip r = None \/ cf_ip r = Some "" ->
      forall e, public_ip r = Some e -> e <> "" -> real_ip r = Some e)
  /\ (cf_ip r = None \/ cf_ip r = Some "" ->
      public_ip r = None \/ public_ip r = Some "" ->
      real_ip r = remote_addr r)
  /\ (cf_ip r = None -> x_forwarded_for r = Some "10.0.0.5, 8.8.8.8" ->
      real_ip r = Some "8.8.8.8")
  /\ (cf_ip r = None -> x_forwarded_for r = None ->
      real_ip r = remote_addr r)
  /\ (forall action,
         log_action action r =
         [INFO (action ++ " | Real IP: " ++ PyStr.fmt (real_ip r)
                ++ ", CF-IP: " ++ PyStr.fmt (cf_ip r)
                ++ ", XFF: " ++ PyStr.fmt (x_forwarded_for r)
                ++ ", Remote: " ++ PyStr.fmt (remote_addr r))]).
Proof.
  unfold real_ip, PyStr.or_. repeat split.
  - intros v -> Hv. destruct v; [contradiction|reflexivity].
  - intros Hcf e -> He. apply truthy_false in Hcf. rewrite Hcf.
    destruct e; [contradiction|reflexivity].
  - intros Hcf Hp. apply truthy_false in Hcf, Hp. now rewrite Hcf, Hp.
  - intros -> Hx. unfold public_ip, ip_chain. now rewrite Hx.
  - intros -> Hx. unfold public_ip, ip_chain. now rewrite Hx.
Qed.

(** C9.  An edge-proxy header that is present with an empty value is
    treated as absent: the request resolves as the same request without
    that header, through the forwarded-for chain or the peer address; and
    an empty public entry falls through to the peer address. *)
Theorem C9_empty_signals_fall_through (r : request) :
  (cf_ip r = Some "" ->
     real_ip r = real_ip (without_header "CF-Connecting-IP" r)
     /\ real_ip r = PyStr.or_ (public_ip r) (remote_addr r))
  /\ (cf_ip r = None \/ cf_ip r = Some "" ->
      public_ip r = Some "" -> real_ip r = remote_addr r).
Proof.
  split.
  - intros H. unfold real_ip. rewrite H. split; reflexivity.
  - intros Hcf Hp. unfold real_ip, PyStr.or_.
    apply truthy_false in Hcf. now rewrite Hcf, Hp.
Qed.

(** ** Files and dictionaries *)

Lemma take_append_length (s rest : string) :
  take (String.length s) (s ++ rest) = s.
Proof. induction s as [|c s IH]; simpl; [now destruct rest|now rewrite IH]. Qed.

(** Seeking to the start, writing [s] and truncating leaves exactly [s]
    in the file, whatever it held and wherever the position was. *)
Lemma rewrite_whole_file (s : string) (f : file_object) :
  (f_seek 0 ;;; f_write s ;;; f_truncate) f
  = (inr tt, mkFile s (String.length s)).
Proof.
  unfold bind, f_seek, f_write, f_truncate; simpl.
  now rewrite take_append_length.
Qed.

Lemma dict_get_set (members : list (string * json)) (key : string) (v : json) :
  dict_get (dict_set members key v) key = Some v.
Proof.
  induction members as [|[k old] rest IH]; simpl.
  - now rewrite String.eqb_refl.
  - destruct (String.eqb k key) eqn:E; simpl; now rewrite E.
Qed.

Lemma set_views_file_same (fs : filesystem) :
  set_views_file fs (views_file fs) = fs.
Proof. now destruct fs. Qed.

Lemma add_one_error (v : json) (e : exn) : add_one v = inl e -> e = TypeError.
Proof. destruct v; simpl; congruence. Qed.

(** ** The view counter *)

(** The [with] block on an open file that parses to an object with a
    numeric [total_views]: the file ends up holding the dump of the
    updated document and nothing else. *)
Lemma increment_block_ok (text : string) (members : list (string * json))
  (v v' : json) :
  json_loads text = Some (JObj members) ->
  dict_get members "total_views" = Some v ->
  add_one v = inr v' ->
  let data := JObj (dict_set members "total_views" v') in
  increment_block (mkFile text 0)
  = (inr data, mkFile (json_dumps data) (String.length (json_dumps data))).
Proof.
  intros Hl Hg Ha data.
  unfold increment_block, json_load, json_dump, bind, f_read.
  cbn [buf pos drop]. rewrite Hl. cbn [ret getitem]. rewrite Hg.
  cbn [lift ret]. rewrite Ha. cbn [lift ret setitem]. fold data.
  unfold f_seek, f_write, f_truncate. cbn [buf pos take Nat.add append].
  now rewrite take_append_length.
Qed.

Lemma try_increment_ok (fs : filesystem) (text : string)
  (members : list (string * json)) (v v' : json) :
  views_file fs = Some text ->
  json_loads text = Some (JObj members) ->
  dict_get members "total_views" = Some v ->
  add_one v = inr v' ->
  try_increment false fs
  = (inr v',
     set_views_file fs
       (Some (json_dumps (JObj (dict_set members "total_views" v'))))).
Proof.
  intros Hf Hl Hg Ha. unfold try_increment, with_open_rplus. rewrite Hf.
  rewrite (increment_block_ok text members v v' Hl Hg Ha).
  cbn [buf getitem]. now rewrite dict_get_set.
Qed.

Ltac open_block :=
  unfold increment_block, json_load, bind, f_read; cbn [buf pos drop].

Lemma try_increment_fails (os_error : bool) (fs : filesystem) (e : exn) :
  increment_fails os_error fs e -> try_increment os_error fs = (inl e, fs).
Proof.
  intros H. unfold try_increment, with_open_rplus.
  destruct H as [Hf | text Hf -> | text Hf -> Hl | text data Hf -> Hl Hno
                | text members Hf -> Hl Hg | text members v Hf -> Hl Hg Ha];
    rewrite Hf.
  - now rewrite <- Hf, set_views_file_same.
  - now rewrite <- Hf, set_views_file_same.
  - open_block.
    rewrite Hl. cbn [raise buf]. now rewrite <- Hf, set_views_file_same.
  - open_block.
    rewrite Hl. cbn [ret].
    destruct data; try (cbn; now rewrite <- Hf, set_views_file_same).
    now elim (Hno members).
  - open_block.
    rewrite Hl. cbn [ret getitem]. rewrite Hg. cbn.
    now rewrite <- Hf, set_views_file_same.
  - open_block.
    rewrite Hl. cbn [ret getitem]. rewrite Hg. cbn [lift ret]. rewrite Ha.
    cbn. now rewrite <- Hf, set_views_file_same.
Qed.

(** Every call either meets one of the causes of failure or finds an
    object with a numeric [total_views]. *)
Lemma increment_cases (os_error : bool) (fs : filesystem) :
  (exists e, increment_fails os_error fs e)
  \/ (exists text members v v',
         os_error = false
         /\ views_file fs = Some text
         /\ json_loads text = Some (JObj members)
         /\ dict_get members "total_views" = Some v
         /\ add_one v = inr v').
Proof.
  destruct (views_file fs) as [text|] eqn:Hf.
  2:{ left. eexists. apply fails_missing; eauto. }
  destruct os_error.
  { left. eexists. eapply fails_refused; eauto. }
  destruct (json_loads text) as [data|] eqn:Hl.
  2:{ left. eexists. eapply fails_parse; eauto. }
  assert (Hobj: (exists members, data = JObj members)
                \/ (forall members, data <> JObj members))
    by (destruct data; try (right; intros; discriminate); left; eauto).
  destruct Hobj as [[members ->] | Hno].
  2:{ left. eexists. eapply fails_not_object; eauto. }
  destruct (dict_get members "total_views") as [v|] eqn:Hg.
  2:{ left. eexists. eapply fails_no_field; eauto. }
  destruct (add_one v) as [e|v'] eqn:Ha.
  - left. exists TypeError. eapply fails_not_number; eauto.
    now rewrite Ha, (add_one_error v e Ha).
  - right. exists text, members, v, v'. auto.
Qed.

(** A granted open of a file that parses to an object with an integer
    [total_views] completes with the successor. *)
Lemma increment_integer (fs : filesystem) (text : string)
  (members : list (string * json)) (n : Z) :
  views_file fs = Some text ->
  json_loads text = Some (JObj members) ->
  dict_get members "total_views" = Some (JInt n) ->
  get_and_increment_views false fs
  = (JInt (n + 1), [],
     set_views_file fs
       (Some (json_dumps (JObj (dict_set members "total_views" (JInt (n + 1))))))).
Proof.
  intros Hf Hl Hg. unfold get_and_increment_views.
  now rewrite (try_increment_ok fs text members (JInt n) (JInt (n + 1)) Hf Hl Hg).
Qed.

Lemma increment_refused (fs : filesystem) (text : string) :
  views_file fs = Some text ->
  get_and_increment_views true fs
  = (JInt (-1), [ERROR "Error updating views: " OSError], fs).
Proof.
  intros Hf. unfold get_and_increment_views.
  now rewrite (try_increment_fails true fs OSError
                 (fails_refused true fs text Hf eq_refl)).
Qed.

(** C5.  A call that completes (leaves the [try] block, logging no error)
    has parsed the counter file as one JSON object, added one to its
    [total_views] member, put the dump of the whole updated document in
    place of the previous contents, and returned the new value; for an
    integer counter [n] that value is [n + 1].  Conversely, on a file that
    parses to an object with an integer [total_views] the call completes. *)
Theorem C5_increment_success (os_error : bool) (fs : filesystem) :
  (forall views fs',
      get_and_increment_views os_error fs = (views, [], fs') ->
      exists text members v,
        views_file fs = Some text
        /\ json_loads text = Some (JObj members)
        /\ dict_get members "total_views" = Some v
        /\ add_one v = inr views
        /\ (forall n, v = JInt n -> views = JInt (n + 1))
        /\ fs' = set_views_file fs
                   (Some (json_dumps (JObj (dict_set members "total_views" views)))))
  /\ (forall text members n,
         os_error = false ->
         views_file fs = Some text ->
         json_loads text = Some (JObj members) ->
         dict_get members "total_views" = Some (JInt n) ->
         get_and_increment_views os_error fs
         = (JInt (n + 1), [],
            set_views_file fs
              (Some (json_dumps
                       (JObj (dict_set members "total_views" (JInt (n + 1)))))))).
Proof.
  split.
  - intros views fs' H. unfold get_and_increment_views in H.
    destruct (increment_cases os_error fs)
      as [[e He] | (text & members & v & v' & -> & Hf & Hl & Hg & Ha)].
    + rewrite (try_increment_fails _ _ _ He) in H. discriminate.
    + rewrite (try_increment_ok fs text members v v' Hf Hl Hg Ha) in H.
      injection H as <- <-.
      exists text, members, v. repeat split; auto.
      intros n ->. simpl in Ha. congruence.
  - intros text members n -> Hf Hl Hg. now apply (increment_integer fs text).
Qed.

(** C6.  Whatever makes the [try] block fail (the file absent, the open
    refused, the text not JSON, the document not an object with a numeric
    [total_views]), the operation returns -1 and logs the error instead of
    raising, and the views endpoint answers with the JSON body
    [{"total_views": -1}] after logging its action. *)
Theorem C6_failure_returns_sentinel (os_error : bool) (fs : filesystem)
  (e : exn) (r : request) :
  increment_fails os_error fs e ->
  get_and_increment_views os_error fs
  = (JInt (-1), [ERROR "Error updating views: " e], fs)
  /\ views_api os_error fs r
     = (jsonify (counter_doc (-1)),
        ERROR "Error updating views: " e :: log_action "Viewed /api/views" r,
        fs).
Proof.
  intros H. unfold views_api, get_and_increment_views.
  now rewrite (try_increment_fails _ _ _ H).
Qed.

(** C10.  Whenever the operation takes its [except] path (it logs an
    error and returns -1), the cause lies before the write step (the open,
    the parse, the lookup or the addition) and every file, the counter file
    included, is exactly as it was before the call. *)
Theorem C10_failure_leaves_file_unchanged (os_error : bool) (fs fs' : filesystem)
  (views : json) (err : log_record) (errors : list log_record) :
  get_and_increment_views os_error fs = (views, err :: errors, fs') ->
  fs' = fs
  /\ views_file fs' = views_file fs
  /\ views = JInt (-1)
  /\ exists e, increment_fails os_error fs e
               /\ err = ERROR "Error updating views: " e /\ errors = [].
Proof.
  intros H. unfold get_and_increment_views in H.
  destruct (increment_cases os_error fs)
    as [[e He] | (text & members & v & v' & -> & Hf & Hl & Hg & Ha)].
  - rewrite (try_increment_fails _ _ _ He) in H.
    injection H as <- <- <- <-. repeat split; eauto.
  - rewrite (try_increment_ok fs text members v v' Hf Hl Hg Ha) in H.
    discriminate.
Qed.

(** ** Runs of the views endpoint *)

Lemma increment_granted (fs : filesystem) (n : Z) :
  counter_round_trip -> (0 <= n)%Z ->
  views_file fs = Some (json_dumps (counter_doc n)) ->
  get_and_increment_views false fs
  = (JInt (n + 1), [], set_views_file fs (Some (json_dumps (counter_doc (n + 1))))).
Proof.
  intros Hrt Hn Hf.
  exact (increment_integer fs _ _ n Hf (Hrt n Hn) eq_refl).
Qed.

Lemma run_views_app (earlier later : list bool) (fs : filesystem) :
  run_views (earlier ++ later) fs
  = (fst (run_views earlier fs) ++ fst (run_views later (snd (run_views earlier fs))),
     snd (run_views later (snd (run_views earlier fs)))).
Proof.
  revert fs. induction earlier as [|flag earlier IH]; intros fs; simpl.
  - now destruct (run_views later fs).
  - destruct (get_and_increment_views flag fs) as [[views errors] fs1].
    rewrite IH. destruct (run_views earlier fs1) as [results fs2]. reflexivity.
Qed.

(** Along a run from a counter document the file always holds a counter
    document: the start value plus the completions so far. *)
Lemma run_views_counter (schedule : list bool) :
  counter_round_trip ->
  forall (fs : filesystem) (n : Z),
    (0 <= n)%Z ->
    views_file fs = Some (json_dumps (counter_doc n)) ->
    views_file (snd (run_views schedule fs))
    = Some (json_dumps (counter_doc (n + completions (fst (run_views schedule fs))))).
Proof.
  intros Hrt. unfold completions.
  induction schedule as [|flag later IH]; intros fs n Hn Hf; simpl.
  - now rewrite Z.add_0_r.
  - destruct flag.
    + rewrite (increment_refused fs _ Hf).
      specialize (IH fs n Hn Hf).
      destruct (run_views later fs) as [results fs']. simpl in *. exact IH.
    + rewrite (increment_granted fs n Hrt Hn Hf).
      set (fs1 := set_views_file fs _).
      assert (Hf1 : views_file fs1 = Some (json_dumps (counter_doc (n + 1))))
        by reflexivity.
      specialize (IH fs1 (n + 1)%Z ltac:(lia) Hf1).
      destruct (run_views later fs1) as [results fs']. simpl in *.
      rewrite IH. do 3 f_equal. lia.
Qed.

Lemma completions_nonneg (results : list (json * list log_record)) :
  (0 <= completions results)%Z.
Proof. unfold completions. lia. Qed.

Lemma completions_app (a b : list (json * list log_record)) :
  completions (a ++ b) = (completions a + completions b)%Z.
Proof. unfold completions. rewrite filter_app, length_app. lia. Qed.

Lemma stored_counter (fs : filesystem) (n : Z) :
  counter_round_trip -> (0 <= n)%Z ->
  views_file fs = Some (json_dumps (counter_doc n)) ->
  stored_total_views fs = Some (JInt n).
Proof.
  intros Hrt Hn Hf. unfold stored_total_views. now rewrite Hf, (Hrt n Hn).
Qed.

(** A run of [N] granted calls from the counter document [n]: each call
    completes, and the calls return [n + 1], ..., [n + N]. *)
Lemma run_views_all_granted (N : nat) :
  counter_round_trip ->
  forall (fs : filesystem) (n : Z),
    (0 <= n)%Z ->
    views_file fs = Some (json_dumps (counter_doc n)) ->
    fst (run_views (repeat false N) fs)
    = map (fun k => (JInt (n + Z.of_nat k), [])) (seq 1 N).
Proof.
  intros Hrt. induction N as [|N IH]; intros fs n Hn Hf; simpl; [reflexivity|].
  rewrite (increment_granted fs n Hrt Hn Hf).
  set (fs1 := set_views_file fs _).
  assert (Hf1 : views_file fs1 = Some (json_dumps (counter_doc (n + 1))))
    by reflexivity.
  specialize (IH fs1 (n + 1)%Z ltac:(lia) Hf1).
  destruct (run_views (repeat false N) fs1) as [results fs']. simpl in *.
  rewrite IH. f_equal.
  rewrite <- (seq_shift N 1), map_map.
  apply map_ext. intros k. do 2 f_equal. lia.
Qed.

Lemma startup_creates_counter (fs0 : filesystem) :
  views_file fs0 = None ->
  views_file (startup fs0) = Some (json_dumps (counter_doc 0)).
Proof. intros H. unfold startup, ensure_file. now rewrite H. Qed.

(** C4.  Start-up on a tree without counter file creates it holding
    [{"total_views": 0}].  From there, under a codec that loads back the
    counter documents it dumps: after any run of calls the stored
    [total_views] is the number of calls that completed; [N] granted calls
    all complete, return 1, ..., [N] and leave [N] stored; and extending a
    run by any further calls, completed or failed, never lowers the stored
    value. *)
Theorem C4_counter_counts_completions (fs0 : filesystem) :
  counter_round_trip ->
  views_file fs0 = None ->
  let fs := startup fs0 in
  stored_total_views fs = Some (JInt 0)
  /\ (forall schedule,
         stored_total_views (snd (run_views schedule fs))
         = Some (JInt (completions (fst (run_views schedule fs)))))
  /\ (forall N,
         fst (run_views (repeat false N) fs)
         = map (fun k => (JInt (Z.of_nat k), [])) (seq 1 N)
         /\ completions (fst (run_views (repeat false N) fs)) = Z.of_nat N
         /\ stored_total_views (snd (run_views (repeat false N) fs))
            = Some (JInt (Z.of_nat N)))
  /\ (forall earlier later,
         exists a b,
           stored_total_views (snd (run_views earlier fs)) = Some (JInt a)
           /\ stored_total_views (snd (run_views (earlier ++ later) fs))
              = Some (JInt b)
           /\ (a <= b)%Z).
Proof.
  intros Hrt Hf0 fs.
  assert (Hf : views_file fs = Some (json_dumps (counter_doc 0)))
    by now apply startup_creates_counter.
  assert (Hstored : forall schedule,
             stored_total_views (snd (run_views schedule fs))
             = Some (JInt (completions (fst (run_views schedule fs))))).
  { intros schedule.
    apply stored_counter; [exact Hrt|apply completions_nonneg|].
    now rewrite (run_views_counter schedule Hrt fs 0 (Z.le_refl 0) Hf). }
  split; [exact (Hstored [])|]. split; [exact Hstored|split].
  - intros N.
    assert (Hres := run_views_all_granted N Hrt fs 0 (Z.le_refl 0) Hf).
    assert (Hc : completions (fst (run_views (repeat false N) fs)) = Z.of_nat N).
    { rewrite Hres. unfold completions. f_equal.
      rewrite <- (length_seq N 1) at 2. rewrite <- (length_map
        (fun k => (JInt (0 + Z.of_nat k), @nil log_record)) (seq 1 N)).
      f_equal. apply forallb_filter_id.
      apply forallb_forall. intros x Hx. apply in_map_iff in Hx.
      destruct Hx as (k & <- & _). reflexivity. }
    split; [|split].
    + rewrite Hres. apply map_ext. intros k. reflexivity.
    + exact Hc.
    + now rewrite Hstored, Hc.
  - intros earlier later.
    exists (completions (fst (run_views earlier fs))),
           (completions (fst (run_views (earlier ++ later) fs))).
    split; [apply Hstored|split; [apply Hstored|]].
    rewrite run_views_app. cbn [fst]. rewrite completions_app.
    pose proof (completions_nonneg
                  (fst (run_views later (snd (run_views earlier fs))))).
    lia.
Qed.

(** ** The order of file names *)

Lemma ascii_compare_refl (a : ascii) : Ascii.compare a a = Eq.
Proof. unfold Ascii.compare. apply N.compare_refl. Qed.

Lemma string_compare_not_gt_trans (a b c : string) :
  String.compare a b <> Gt -> String.compare b c <> Gt ->
  String.compare a c <> Gt.
Proof.
  revert b c. induction a as [|x a IH]; intros [|y b] [|z c]; simpl;
    try congruence.
  destruct (Ascii.compare x y) eqn:Exy; try congruence;
    destruct (Ascii.compare y z) eqn:Eyz; try congruence; intros Hab Hbc.
  - apply Ascii.compare_eq_iff in Exy, Eyz. subst.
    rewrite ascii_compare_refl. now apply (IH b c).
  - apply Ascii.compare_eq_iff in Exy. subst. now rewrite Eyz.
  - apply Ascii.compare_eq_iff in Eyz. subst. now rewrite Exy.
  - unfold Ascii.compare in *.
    rewrite N.compare_lt_iff in Exy, Eyz.
    assert (H : (N_of_ascii x < N_of_ascii z)%N) by lia.
    apply N.compare_lt_iff in H. now rewrite H.
Qed.

Lemma string_leb_trans (a b c : string) :
  String.leb a b = true -> String.leb b c = true -> String.leb a c = true.
Proof.
  unfold String.leb. intros Hab Hbc.
  assert (H : String.compare a c <> Gt).
  { apply (string_compare_not_gt_trans a b c).
    - destruct (String.compare a b); congruence.
    - destruct (String.compare b c); congruence. }
  destruct (String.compare a c); congruence.
Qed.

(** [sorted(names, reverse=True)] rearranges the names so that each one
    is followed only by names that are not greater. *)
Lemma sorted_reverse_spec (names : list string) :
  Permutation names (sorted_reverse names)
  /\ StronglySorted (fun a b => String.leb b a = true) (sorted_reverse names).
Proof.
  split; [apply NameSort.Permuted_sort|].
  assert (H : StronglySorted (fun a b => is_true (DescendingNames.leb a b))
                (sorted_reverse names)).
  { apply NameSort.StronglySorted_sort.
    intros a b c Hab Hbc. unfold is_true, DescendingNames.leb in *.
    now apply (string_leb_trans c b a). }
  exact H.
Qed.

(** ** The diary listing *)

Lemma diaries_loop_complete (fs : filesystem) (filenames : list string) :
  (forall f, In f filenames -> PyStr.endswith f ".md" = true ->
             diary_read fs f <> None) ->
  forall acc,
  exists entries,
    diaries_loop fs filenames acc = inr (acc ++ entries)
    /\ Forall2 (entry_for fs)
         (filter (fun f => PyStr.endswith f ".md") filenames) entries.
Proof.
  induction filenames as [|f rest IH]; intros Hread acc.
  - exists []. split; [now rewrite app_nil_r|constructor].
  - cbn [diaries_loop filter].
    assert (Hrest : forall g, In g rest -> PyStr.endswith g ".md" = true ->
                              diary_read fs g <> None)
      by (intros g Hg; apply Hread; now right).
    destruct (PyStr.endswith f ".md") eqn:Hmd.
    + destruct (diary_read fs f) as [md_content|] eqn:Hc.
      2:{ now elim (Hread f (or_introl eq_refl) Hmd). }
      destruct (IH Hrest
                  (acc ++ [mkEntry (PyStr.replace f ".md" "")
                             (markdown md_content ["fenced_code"; "codehilite"])]))
        as (entries & Hloop & Hall).
      eexists (_ :: entries). split.
      * rewrite Hloop, <- app_assoc. reflexivity.
      * constructor; [|exact Hall]. split; [reflexivity|]. eauto.
    + apply (IH Hrest acc).
Qed.

Lemma diaries_loop_aborts (fs : filesystem) (filenames : list string) (f : string) :
  In f filenames -> PyStr.endswith f ".md" = true -> diary_read fs f = None ->
  forall acc, diaries_loop fs filenames acc = inl OSError.
Proof.
  intros Hin Hmd Hnone.
  induction filenames as [|g rest IH]; intros acc; [contradiction|].
  cbn [diaries_loop]. destruct Hin as [-> | Hin].
  - now rewrite Hmd, Hnone.
  - destruct (PyStr.endswith g ".md"); [|now apply IH].
    destruct (diary_read fs g); [now apply IH|reflexivity].
Qed.

(** When the directory can be listed and every Markdown file in it can be
    read, the page shows one entry per [.md] file, in descending order of
    file name, each pairing the rendering of the file with the file name
    after [replace(".md", "")]. *)
Lemma diaries_page_listing (fs : filesystem) (r : request) (names : list string) :
  diary_listdir fs = Some names ->
  (forall f, In f names -> PyStr.endswith f ".md" = true -> diary_read fs f <> None) ->
  exists entries,
    diaries_page fs r
    = (render_template "diaries.html" (entries_diary entries),
       log_action "Viewed Diaries Page" r, fs)
    /\ Forall2 (entry_for fs)
         (filter (fun f => PyStr.endswith f ".md") (sorted_reverse names)) entries
    /\ Permutation names (sorted_reverse names)
    /\ StronglySorted (fun a b => String.leb b a = true) (sorted_reverse names).
Proof.
  intros Hdir Hread.
  destruct (sorted_reverse_spec names) as [Hperm Hsorted].
  destruct (diaries_loop_complete fs (sorted_reverse names)) with (acc := @nil diary_entry)
    as (entries & Hloop & Hall).
  { intros f Hf. apply Hread. eapply Permutation_in; [symmetry; exact Hperm|exact Hf]. }
  exists entries. unfold diaries_page. rewrite Hdir, Hloop. auto.
Qed.

Lemma length_append (a b : string) :
  String.length (a ++ b) = String.length a + String.length b.
Proof. induction a as [|c a IH]; simpl; [reflexivity|now rewrite IH]. Qed.

(** A file name whose only [.md] is its suffix gets the title the
    specification describes: the name without the extension. *)
Lemma title_when_md_only_suffix (stem : string) :
  (forall k, k < String.length stem ->
             prefix ".md" (drop k (stem ++ ".md")) = false) ->
  PyStr.replace (stem ++ ".md") ".md" "" = stem
  /\ spec_strip_extension (stem ++ ".md") = stem.
Proof.
  intros Hfree. split.
  - unfold PyStr.replace. induction stem as [|c stem IH]; [reflexivity|].
    cbn [append PyStr.replace_from].
    rewrite (Hfree 0 ltac:(simpl; lia) : prefix ".md" (String c (stem ++ ".md")) = false).
    f_equal. apply IH. intros k Hk.
    apply (Hfree (S k)). simpl. lia.
  - unfold spec_strip_extension.
    replace (String.length (stem ++ ".md") - String.length ".md")
      with (String.length stem).
    + apply take_append_length.
    + rewrite length_append. simpl. lia.
Qed.

(** C2, on the title.  For a directory that holds [notes.md.md] the page
    is rendered with the title [notes]: [replace] removes every [.md] of
    the name, where stripping the extension gives [notes.md]. *)
Theorem C2_title_replaces_every_md (r : request) (text : string) :
  let fs := mkFS None None None (Some ["notes.md.md"]) (fun _ => Some text) in
  diaries_page fs r
  = (render_template "diaries.html"
       (entries_diary
          [mkEntry "notes" (markdown text ["fenced_code"; "codehilite"])]),
     log_action "Viewed Diaries Page" r, fs)
  /\ spec_strip_extension "notes.md.md" = "notes.md".
Proof. split; reflexivity. Qed.

(** C7.  If listing the diary directory fails, or reading any of its
    Markdown files fails, the page function logs the error and aborts with
    status 500 without logging the page view; and a page that is rendered
    always carries the complete listing, never the entries read up to a
    failure. *)
Theorem C7_diary_failure_aborts (fs : filesystem) (r : request) :
  (diary_listdir fs = None
   \/ (exists names f,
          diary_listdir fs = Some names /\ In f names
          /\ PyStr.endswith f ".md" = true /\ diary_read fs f = None) ->
   diaries_page fs r = (abort 500, [ERROR "Error loading diaries: " OSError], fs))
  /\ (forall template ctx logs fs',
         diaries_page fs r = (render_template template ctx, logs, fs') ->
         exists names entries,
           diary_listdir fs = Some names
           /\ ctx = entries_diary entries
           /\ Forall2 (entry_for fs)
                (filter (fun f => PyStr.endswith f ".md") (sorted_reverse names))
                entries).
Proof.
  split.
  - intros [Hdir | (names & f & Hdir & Hin & Hmd & Hnone)];
      unfold diaries_page; rewrite Hdir; [reflexivity|].
    rewrite (diaries_loop_aborts fs (sorted_reverse names) f); auto.
    eapply Permutation_in; [apply NameSort.Permuted_sort|exact Hin].
  - intros template ctx logs fs' H. unfold diaries_page in H.
    destruct (diary_listdir fs) as [names|] eqn:Hdir; [|discriminate].
    destruct (diaries_loop fs (sorted_reverse names) []) as [e|entries] eqn:Hloop;
      [discriminate|].
    injection H as <- <- <- <-.
    exists names, entries. repeat split.
    assert (Hread : forall f, In f (sorted_reverse names) ->
                      PyStr.endswith f ".md" = true -> diary_read fs f <> None).
    { intros f Hin Hmd Hnone.
      rewrite (diaries_loop_aborts fs _ f Hin Hmd Hnone) in Hloop. discriminate. }
    destruct (diaries_loop_complete fs (sorted_reverse names) Hread [])
      as (entries' & Hloop' & Hall).
    rewrite Hloop in Hloop'. now injection Hloop' as ->.
Qed.

(** ** The 404 handler *)

(** C8.  A request whose path the URL map matches to no view function is
    answered by a redirect to "/", changes no file, and emits exactly one
    log record, the one tagged "404 Redirect". *)
Theorem C8_unmatched_path_redirects_home (os_error : bool) (fs : filesystem)
  (r : request) :
  url_match (path r) = None ->
  handle_request os_error fs r
  = (redirect "/",
     [INFO ("404 Redirect | Real IP: " ++ PyStr.fmt (real_ip r)
            ++ ", CF-IP: " ++ PyStr.fmt (cf_ip r)
            ++ ", XFF: " ++ PyStr.fmt (x_forwarded_for r)
            ++ ", Remote: " ++ PyStr.fmt (remote_addr r))],
     fs)
  /\ List.length (snd (fst (handle_request os_error fs r))) = 1
  /\ List.length (filter (tagged "404 Redirect")
                    (snd (fst (handle_request os_error fs r)))) = 1.
Proof.
  intros H. unfold handle_request. rewrite H. repeat split.
Qed.

(* ================================================================== *)
(** * Further properties *)

(** ** Stripping and splitting *)

Lemma lstrip_no_leading_space (s : string) : no_leading_space (PyStr.lstrip s).
Proof.
  induction s as [|c s IH]; simpl; [exact I|].
  destruct (PyStr.isspace c) eqn:E; [exact IH|exact E].
Qed.

Lemma lstrip_fixed (s : string) : no_leading_space s -> PyStr.lstrip s = s.
Proof. destruct s as [|c s]; simpl; [reflexivity|]. now intros ->. Qed.

Lemma rstrip_cons (c : ascii) (s : string) :
  PyStr.rstrip (String c s)
  = match PyStr.rstrip s with
    | EmptyString => if PyStr.isspace c then EmptyString else String c EmptyString
    | String d t => String c (String d t)
    end.
Proof. reflexivity. Qed.

Lemma rstrip_idempotent (s : string) : PyStr.rstrip (PyStr.rstrip s) = PyStr.rstrip s.
Proof.
  induction s as [|c s IH]; [reflexivity|].
  rewrite (rstrip_cons c s).
  destruct (PyStr.rstrip s) as [|d t] eqn:E.
  - destruct (PyStr.isspace c) eqn:Ec; [reflexivity|].
    rewrite rstrip_cons. cbn [PyStr.rstrip]. now rewrite Ec.
  - rewrite rstrip_cons, IH. reflexivity.
Qed.

Lemma rstrip_no_leading_space (s : string) :
  no_leading_space s -> no_leading_space (PyStr.rstrip s).
Proof.
  destruct s as [|c s]; [auto|]. intros Hc. rewrite rstrip_cons.
  cbn [no_leading_space] in Hc.
  destruct (PyStr.rstrip s); [now rewrite Hc|exact Hc].
Qed.

Lemma strip_idempotent (s : string) : PyStr.strip (PyStr.strip s) = PyStr.strip s.
Proof.
  unfold PyStr.strip.
  rewrite (lstrip_fixed (PyStr.rstrip (PyStr.lstrip s))).
  - apply rstrip_idempotent.
  - apply rstrip_no_leading_space, lstrip_no_leading_space.
Qed.

Lemma lstrip_occurs (c : ascii) (s : string) :
  occurs c s = false -> occurs c (PyStr.lstrip s) = false.
Proof.
  induction s as [|d s IH]; simpl; [auto|]. intros H.
  apply orb_false_iff in H. destruct H as [Hd Hs].
  destruct (PyStr.isspace d); [now apply IH|]. simpl. now rewrite Hd, Hs.
Qed.

Lemma rstrip_occurs (c : ascii) (s : string) :
  occurs c s = false -> occurs c (PyStr.rstrip s) = false.
Proof.
  induction s as [|d s IH]; [auto|]. cbn [occurs]. intros H.
  apply orb_false_iff in H. destruct H as [Hd Hs]. specialize (IH Hs).
  rewrite rstrip_cons.
  destruct (PyStr.rstrip s) as [|e t].
  - destruct (PyStr.isspace d); cbn [occurs]; [reflexivity|now rewrite Hd].
  - change (occurs c (String d (String e t)))
      with (Ascii.eqb d c || occurs c (String e t)).
    now rewrite Hd, IH.
Qed.

Lemma split_fields_without_separator (sep : ascii) (s : string) :
  Forall (fun field => occurs sep field = false) (PyStr.split sep s).
Proof.
  induction s as [|c s IH]; simpl; [now repeat constructor|].
  destruct (Ascii.eqb c sep) eqn:E; [now constructor|].
  destruct (PyStr.split sep s) as [|field fields].
  - constructor; [simpl; now rewrite E|constructor].
  - inversion IH as [|? ? Hf Hfs]; subst.
    constructor; [simpl; now rewrite E, Hf|exact Hfs].
Qed.

Lemma split_not_nil (sep : ascii) (s : string) : PyStr.split sep s <> [].
Proof.
  destruct s as [|c s]; simpl; [discriminate|].
  destruct (Ascii.eqb c sep); [discriminate|].
  destruct (PyStr.split sep s); discriminate.
Qed.

Lemma join_head (sep : string) (c : ascii) (field : string) (fields : list string) :
  join sep (String c field :: fields) = String c (join sep (field :: fields)).
Proof. destruct fields; reflexivity. Qed.

Lemma join_split (sep : ascii) (s : string) :
  join (String sep EmptyString) (PyStr.split sep s) = s.
Proof.
  induction s as [|c s IH]; [reflexivity|]. cbn [PyStr.split].
  pose proof (split_not_nil sep s) as Hnil.
  destruct (PyStr.split sep s) as [|field fields]; [contradiction|].
  destruct (Ascii.eqb c sep) eqn:E.
  - apply Ascii.eqb_eq in E. subst c.
    change (join (String sep EmptyString) (EmptyString :: field :: fields))
      with (String sep (join (String sep EmptyString) (field :: fields))).
    now rewrite IH.
  - now rewrite join_head, IH.
Qed.

Lemma split_length (sep : ascii) (s : string) :
  List.length (PyStr.split sep s) = S (count_char sep s).
Proof.
  induction s as [|c s IH]; [reflexivity|]. cbn [PyStr.split count_char].
  destruct (Ascii.eqb c sep).
  - simpl. now rewrite IH.
  - destruct (PyStr.split sep s) as [|field fields]; simpl in *; lia.
Qed.

(** ** More on IP attribution *)

(** X1.  Whatever [public_ip] selects has no surrounding whitespace, does
    not start with one of the private prefixes and contains no comma. *)
Theorem X1_public_ip_is_trimmed_and_public (r : request) (e : string) :
  public_ip r = Some e ->
  PyStr.strip e = e
  /\ PyStr.startswith e private_prefixes = false
  /\ occurs "," e = false.
Proof.
  intros H. rewrite public_ip_filter in H.
  apply next_map_filter_Some in H.
  destruct H as (before & entry & after & Hchain & _ & Hkeep & ->).
  split; [apply strip_idempotent|]. split.
  - now apply negb_true_iff in Hkeep.
  - assert (Hin : In entry (ip_chain r))
      by (rewrite Hchain; apply in_or_app; right; now left).
    unfold ip_chain in Hin.
    destruct (x_forwarded_for r) as [[|c s]|]; try contradiction.
    pose proof (split_fields_without_separator "," (String c s)) as Hall.
    rewrite Forall_forall in Hall.
    unfold PyStr.strip. apply rstrip_occurs, lstrip_occurs. now apply Hall.
Qed.

(** X2.  The chain loses nothing of a non-empty forwarded-for header:
    joining its entries with commas gives the header back, and it has one
    entry more than the header has commas. *)
Theorem X2_ip_chain_joins_back (r : request) (xff : string) :
  x_forwarded_for r = Some xff -> xff <> "" ->
  join "," (ip_chain r) = xff
  /\ List.length (ip_chain r) = S (count_char "," xff).
Proof.
  intros H Hne. rewrite (ip_chain_split r xff H Hne).
  split; [apply join_split|apply split_length].
Qed.

(** X3.  The logged IP is always one of the three signals; it is [None]
    only when the peer address is [None] and neither header gave a
    non-empty value; and it is the empty string only when the peer address
    is the empty string. *)
Theorem X3_real_ip_is_one_of_the_signals (r : request) :
  (real_ip r = cf_ip r \/ real_ip r = public_ip r \/ real_ip r = remote_addr r)
  /\ (real_ip r = None <->
      PyStr.truthy (cf_ip r) = false /\ PyStr.truthy (public_ip r) = false
      /\ remote_addr r = None)
  /\ (real_ip r = Some "" -> remote_addr r = Some "").
Proof.
  unfold real_ip, PyStr.or_.
  destruct (cf_ip r) as [[|c s]|]; cbn [PyStr.truthy];
    destruct (public_ip r) as [[|d t]|]; cbn [PyStr.truthy];
    repeat split; auto; try discriminate;
    try (intros (H1 & H2 & H3); (discriminate || assumption));
    tauto.
Qed.

(** ** More on the view counter *)

Lemma dict_get_set_other (members : list (string * json)) (key k : string)
  (v : json) :
  k <> key -> dict_get (dict_set members key v) k = dict_get members k.
Proof.
  intros Hk. induction members as [|[k0 old] rest IH]; simpl.
  - destruct (String.eqb key k) eqn:E; [|reflexivity].
    apply String.eqb_eq in E. congruence.
  - destruct (String.eqb k0 key) eqn:E; simpl.
    + apply String.eqb_eq in E. subst k0.
      destruct (String.eqb key k) eqn:E'; [|reflexivity].
      apply String.eqb_eq in E'. congruence.
    + now rewrite IH.
Qed.

Lemma dict_set_keys (members : list (string * json)) (key : string) (v old : json) :
  dict_get members key = Some old ->
  map fst (dict_set members key v) = map fst members.
Proof.
  induction members as [|[k0 v0] rest IH]; simpl; [discriminate|].
  destruct (String.eqb k0 key); simpl; [reflexivity|].
  intros H. now rewrite IH.
Qed.

(** X4.  A call that completes rewrites only the [total_views] member:
    the document written has the same keys in the same order, every other
    member keeps its value, and the other files are untouched. *)
Theorem X4_increment_keeps_other_members (os_error : bool) (fs fs' : filesystem)
  (views : json) :
  get_and_increment_views os_error fs = (views, [], fs') ->
  exists text members members',
    views_file fs = Some text
    /\ json_loads text = Some (JObj members)
    /\ views_file fs' = Some (json_dumps (JObj members'))
    /\ map fst members' = map fst members
    /\ dict_get members' "total_views" = Some views
    /\ (forall k, k <> "total_views" -> dict_get members' k = dict_get members k)
    /\ honour_file fs' = honour_file fs
    /\ goodbyes_file fs' = goodbyes_file fs
    /\ diary_listdir fs' = diary_listdir fs
    /\ diary_read fs' = diary_read fs.
Proof.
  intros H. unfold get_and_increment_views in H.
  destruct (increment_cases os_error fs)
    as [[e He] | (text & members & v & v' & -> & Hf & Hl & Hg & Ha)].
  - rewrite (try_increment_fails _ _ _ He) in H. discriminate.
  - rewrite (try_increment_ok fs text members v v' Hf Hl Hg Ha) in H.
    injection H as <- <-.
    exists text, members, (dict_set members "total_views" v').
    repeat split; auto.
    + now apply (dict_set_keys members "total_views" v' v).
    + apply dict_get_set.
    + intros k Hk. now apply dict_get_set_other.
Qed.

Lemma fails_whatever_the_open (fs : filesystem) (e : exn) (os_error : bool) :
  increment_fails false fs e -> exists e', increment_fails os_error fs e'.
Proof.
  intros H. destruct os_error; [|eauto].
  destruct (views_file fs) as [text|] eqn:Hf.
  - exists OSError. now apply (fails_refused true fs text).
  - exists FileNotFoundError. now apply fails_missing.
Qed.

(** X5.  Nothing repairs the counter file: once a call whose open was
    granted has failed, every later call fails as well, returns -1, and the
    files stay exactly as they are. *)
Theorem X5_failure_is_absorbing (fs : filesystem) (e : exn) (schedule : list bool) :
  increment_fails false fs e ->
  snd (run_views schedule fs) = fs
  /\ Forall (fun result => fst result = JInt (-1) /\ completed result = false)
       (fst (run_views schedule fs)).
Proof.
  intros H. induction schedule as [|flag later IH]; simpl.
  - split; [reflexivity|constructor].
  - destruct (fails_whatever_the_open fs e flag H) as [e' He'].
    unfold get_and_increment_views. rewrite (try_increment_fails _ _ _ He').
    destruct (run_views later fs) as [results fs'']. simpl in *.
    destruct IH as [-> Hall]. split; [reflexivity|].
    constructor; [split; reflexivity|exact Hall].
Qed.

(** X6.  Start-up creates exactly the data files that are missing: after
    it all three exist, a file that existed keeps its text (a corrupt one
    included), the diary files are not touched, and running it again
    changes nothing. *)
Theorem X6_startup_creates_only_missing_files (fs : filesystem) :
  startup (startup fs) = startup fs
  /\ (views_file (startup fs) <> None
      /\ honour_file (startup fs) <> None
      /\ goodbyes_file (startup fs) <> None)
  /\ (forall text, views_file fs = Some text -> views_file (startup fs) = Some text)
  /\ (forall text, honour_file fs = Some text -> honour_file (startup fs) = Some text)
  /\ (forall text, goodbyes_file fs = Some text ->
                   goodbyes_file (startup fs) = Some text)
  /\ diary_listdir (startup fs) = diary_listdir fs
  /\ diary_read (startup fs) = diary_read fs.
Proof.
  destruct fs as [v h g l rd]. unfold startup, ensure_file. cbn.
  repeat split; try (intros text ->; reflexivity);
    try (destruct v; discriminate); try (destruct h; discriminate);
    try (destruct g; discriminate).
  destruct v, h, g; reflexivity.
Qed.

(** X7.  The counter survives a restart: when the file holds the counter
    document of a non-negative [n], start-up keeps it, and after any run of
    calls the stored value is [n] plus the number of calls that
    completed. *)
Theorem X7_counter_resumes_after_restart (fs : filesystem) (n : Z)
  (schedule : list bool) :
  counter_round_trip -> (0 <= n)%Z ->
  views_file fs = Some (json_dumps (counter_doc n)) ->
  stored_total_views (startup fs) = Some (JInt n)
  /\ stored_total_views (snd (run_views schedule (startup fs)))
     = Some (JInt (n + completions (fst (run_views schedule (startup fs))))).
Proof.
  intros Hrt Hn Hf.
  assert (Hf' : views_file (startup fs) = Some (json_dumps (counter_doc n)))
    by (unfold startup, ensure_file; cbn; now rewrite Hf).
  split; [now apply stored_counter|].
  apply stored_counter; [exact Hrt| |].
  - pose proof (completions_nonneg (fst (run_views schedule (startup fs)))). lia.
  - now apply run_views_counter.
Qed.

(** ** More on the diary listing *)

Lemma endswith_iff (s suffix : string) :
  PyStr.endswith s suffix = true <-> exists stem, s = (stem ++ suffix)%string.
Proof.
  split.
  - induction s as [|c s IH]; cbn [PyStr.endswith]; intros H;
      apply orb_true_iff in H; destruct H as [H | H]; try discriminate.
    + apply String.eqb_eq in H. exists "". now subst.
    + apply String.eqb_eq in H. exists "". now subst.
    + destruct (IH H) as [stem ->]. now exists (String c stem).
  - intros [stem ->]. induction stem as [|c stem IH].
    + destruct suffix; cbn [append PyStr.endswith];
        now rewrite String.eqb_refl.
    + cbn [append PyStr.endswith]. rewrite IH. apply orb_true_r.
Qed.

(** Two descending arrangements of the same names are the same list. *)
Lemma descending_unique (l1 l2 : list string) :
  StronglySorted (fun a b => String.leb b a = true) l1 ->
  StronglySorted (fun a b => String.leb b a = true) l2 ->
  Permutation l1 l2 -> l1 = l2.
Proof.
  revert l2. induction l1 as [|a l1 IH]; intros l2 H1 H2 Hp.
  - apply Permutation_nil in Hp. now subst.
  - destruct l2 as [|b l2].
    + apply Permutation_sym, Permutation_nil in Hp. discriminate.
    + inversion H1 as [|? ? H1' Ha]; subst.
      inversion H2 as [|? ? H2' Hb]; subst.
      rewrite Forall_forall in Ha, Hb.
      assert (Hab : a = b).
      { assert (Hina : In a (b :: l2))
          by (eapply Permutation_in; [exact Hp|now left]).
        assert (Hinb : In b (a :: l1))
          by (eapply Permutation_in; [symmetry; exact Hp|now left]).
        destruct Hina as [-> | Hina]; [reflexivity|].
        destruct Hinb as [-> | Hinb]; [reflexivity|].
        apply String.leb_antisym; [apply Hb, Hina|apply Ha, Hinb]. }
      subst b. f_equal. apply IH; auto.
      now apply Permutation_cons_inv in Hp.
Qed.

Lemma sorted_reverse_permutation (names names' : list string) :
  Permutation names names' -> sorted_reverse names = sorted_reverse names'.
Proof.
  intros Hp.
  destruct (sorted_reverse_spec names) as [P1 S1].
  destruct (sorted_reverse_spec names') as [P2 S2].
  apply descending_unique; auto.
  eapply Permutation_trans; [symmetry; exact P1|].
  eapply Permutation_trans; [exact Hp|exact P2].
Qed.

Lemma diaries_loop_reads_markdown_only (fs fs' : filesystem)
  (filenames : list string) :
  (forall f, is_markdown f = true -> diary_read fs' f = diary_read fs f) ->
  forall acc, diaries_loop fs' filenames acc = diaries_loop fs filenames acc.
Proof.
  intros Hsame. induction filenames as [|f rest IH]; intros acc;
    cbn [diaries_loop]; [reflexivity|].
  destruct (PyStr.endswith f ".md") eqn:Hmd; [|apply IH].
  rewrite (Hsame f Hmd). destruct (diary_read fs f); [apply IH|reflexivity].
Qed.

(** X8.  The diaries page depends only on which names the directory holds
    and on what can be read from the [.md] ones: the order in which the
    directory is listed, and files of any other name (readable or not),
    make no difference to the response and the log. *)
Theorem X8_diaries_page_ignores_order_and_other_files (fs fs' : filesystem)
  (r : request) (names names' : list string) :
  diary_listdir fs = Some names ->
  diary_listdir fs' = Some names' ->
  Permutation names names' ->
  (forall f, is_markdown f = true -> diary_read fs' f = diary_read fs f) ->
  fst (diaries_page fs' r) = fst (diaries_page fs r).
Proof.
  intros Hd Hd' Hp Hsame. unfold diaries_page. rewrite Hd, Hd'.
  rewrite <- (sorted_reverse_permutation names names' Hp).
  rewrite (diaries_loop_reads_markdown_only fs fs' _ Hsame).
  now destruct (diaries_loop fs (sorted_reverse names) []).
Qed.

Lemma filter_permutation {A : Type} (keep : A -> bool) (l l' : list A) :
  Permutation l l' -> Permutation (filter keep l) (filter keep l').
Proof.
  induction 1 as [|x l l' _ IH|x y l|l l' l'' _ IH1 _ IH2]; simpl.
  - constructor.
  - destruct (keep x); [now constructor|exact IH].
  - destruct (keep x), (keep y); try apply Permutation_refl. apply perm_swap.
  - eapply Permutation_trans; eassumption.
Qed.

Lemma filter_strongly_sorted {A : Type} (R : A -> A -> Prop) (keep : A -> bool)
  (l : list A) :
  StronglySorted R l -> StronglySorted R (filter keep l).
Proof.
  induction 1 as [|x l _ IH Hx]; simpl; [constructor|].
  destruct (keep x); [|exact IH].
  constructor; [exact IH|].
  rewrite Forall_forall in *. intros y Hy. apply Hx.
  now apply filter_In in Hy.
Qed.

(** X9.  When the directory can be listed and every [.md] file in it can
    be read, the page is rendered with one entry per file whose name ends
    in [.md] and none for any other file, in descending order of file name,
    each entry holding the rendering of its file; the page view is logged
    and no file changes. *)
Theorem X9_diaries_page_lists_markdown_descending (fs : filesystem) (r : request)
  (names : list string) :
  diary_listdir fs = Some names ->
  (forall f, In f names -> is_markdown f = true -> diary_read fs f <> None) ->
  exists listed entries,
    diaries_page fs r
    = (render_template "diaries.html" (entries_diary entries),
       log_action "Viewed Diaries Page" r, fs)
    /\ Forall2 (entry_for fs) listed entries
    /\ Permutation (filter is_markdown names) listed
    /\ StronglySorted (fun a b => String.leb b a = true) listed
    /\ (forall f, In f listed <-> In f names /\ exists stem, f = (stem ++ ".md")%string)
    /\ List.length entries = List.length (filter is_markdown names).
Proof.
  intros Hd Hread.
  destruct (diaries_page_listing fs r names Hd Hread)
    as (entries & Hpage & Hall & Hperm & Hsorted).
  exists (filter is_markdown (sorted_reverse names)), entries.
  assert (Hp : Permutation (filter is_markdown names)
                 (filter is_markdown (sorted_reverse names)))
    by now apply filter_permutation.
  repeat split; auto.
  - now apply filter_strongly_sorted.
  - apply filter_In in H. destruct H as [H _].
    eapply Permutation_in; [symmetry; exact Hperm|exact H].
  - apply filter_In in H. destruct H as [_ H]. now apply endswith_iff in H.
  - intros [Hin Hstem]. apply filter_In. split.
    + eapply Permutation_in; [exact Hperm|exact Hin].
    + now apply endswith_iff.
  - rewrite <- (Forall2_length Hall). symmetry. now apply Permutation_length.
Qed.

(** X10.  For a file name [stem.md] whose stem has no dot (a date, say)
    the title is the stem. *)
Theorem X10_title_of_dotless_stem (stem : string) :
  occurs "." stem = false ->
  PyStr.replace (stem ++ ".md") ".md" "" = stem.
Proof.
  unfold PyStr.replace. induction stem as [|c stem IH]; [reflexivity|].
  cbn [occurs]. intros H. apply orb_false_iff in H. destruct H as [Hc Hs].
  cbn [append PyStr.replace_from].
  assert (Hp : prefix ".md" (String c (stem ++ ".md")) = false).
  { cbn [prefix]. destruct (ascii_dec "." c) as [<- | _]; [|reflexivity].
    discriminate. }
  rewrite Hp. f_equal. now apply IH.
Qed.

(** ** The pages backed by a JSON file *)

Lemma load_json_file (file : option string) :
  with_open_r file json_load
  = match file with
    | None => inl FileNotFoundError
    | Some text =>
        match json_loads text with
        | Some data => inr data
        | None => inl JSONDecodeError
        end
    end.
Proof.
  destruct file as [text|]; [|reflexivity].
  unfold with_open_r, json_load, bind, f_read. cbn [buf pos drop].
  now destruct (json_loads text).
Qed.

(** X11.  The honour wall and the goodbyes page never fail the request:
    when the file holds a JSON text the page is rendered with its value,
    whatever kind of value it is, and only the page view is logged; when
    the file is missing or is not JSON the page is rendered with the empty
    list and the error is logged before the page view.  No file changes. *)
Theorem X11_json_pages_degrade_to_empty_list (fs : filesystem) (r : request) :
  (forall text entries,
      honour_file fs = Some text -> json_loads text = Some entries ->
      honour_wall fs r
      = (render_template "honour.html" (entries_json entries),
         log_action "Viewed Honour Wall" r, fs))
  /\ (honour_file fs = None
      \/ (exists text, honour_file fs = Some text /\ json_loads text = None) ->
      exists e,
        honour_wall fs r
        = (render_template "honour.html" (entries_json (JArr [])),
           ERROR "Error loading honour.json: " e
             :: log_action "Viewed Honour Wall" r, fs))
  /\ (forall text entries,
         goodbyes_file fs = Some text -> json_loads text = Some entries ->
         goodbyes_page fs r
         = (render_template "goodbyes.html" (entries_json entries),
            log_action "Viewed Goodbyes Page" r, fs))
  /\ (goodbyes_file fs = None
      \/ (exists text, goodbyes_file fs = Some text /\ json_loads text = None) ->
      exists e,
        goodbyes_page fs r
        = (render_template "goodbyes.html" (entries_json (JArr [])),
           ERROR "Error loading goodbyes.json: " e
             :: log_action "Viewed Goodbyes Page" r, fs)).
Proof.
  unfold honour_wall, goodbyes_page. rewrite !load_json_file.
  split; [|split; [|split]].
  - intros text entries -> H. now rewrite H.
  - intros [-> | (text & -> & ->)]; eauto.
  - intros text entries -> H. now rewrite H.
  - intros [-> | (text & -> & ->)]; eauto.
Qed.

(** ** All view functions together *)

Lemma increment_touches_counter_only (os_error : bool) (fs : filesystem) :
  exists file,
    snd (get_and_increment_views os_error fs) = set_views_file fs file
    /\ (views_file fs = None -> file = None).
Proof.
  unfold get_and_increment_views.
  destruct (increment_cases os_error fs)
    as [[e He] | (text & members & v & v' & -> & Hf & Hl & Hg & Ha)].
  - rewrite (try_increment_fails _ _ _ He). exists (views_file fs).
    split; [now rewrite set_views_file_same|auto].
  - rewrite (try_increment_ok fs text members v v' Hf Hl Hg Ha).
    eexists. split; [reflexivity|]. congruence.
Qed.

Lemma other_views_keep_files (ep : endpoint) (os_error : bool) (fs : filesystem)
  (r : request) :
  ep <> ep_views_api -> snd (view_function ep os_error fs r) = fs.
Proof.
  intros Hep. destruct ep; try reflexivity; cbn [view_function].
  - unfold honour_wall. now destruct (with_open_r (honour_file fs) json_load).
  - unfold diaries_page.
    now destruct (match diary_listdir fs with
                  | Some names => diaries_loop fs (sorted_reverse names) []
                  | None => inl OSError
                  end).
  - unfold goodbyes_page. now destruct (with_open_r (goodbyes_file fs) json_load).
  - contradiction.
Qed.

Lemma views_api_files (os_error : bool) (fs : filesystem) (r : request) :
  snd (views_api os_error fs r) = snd (get_and_increment_views os_error fs).
Proof.
  unfold views_api.
  now destruct (get_and_increment_views os_error fs) as [[views errors] fs'].
Qed.

Lemma handled_files (os_error : bool) (fs : filesystem) (r : request) :
  exists file,
    snd (handle_request os_error fs r) = set_views_file fs file
    /\ (views_file fs = None -> file = None)
    /\ (url_match (path r) <> Some ep_views_api -> file = views_file fs).
Proof.
  unfold handle_request.
  destruct (url_match (path r)) as [ep|].
  - assert (Hdec : ep = ep_views_api \/ ep <> ep_views_api)
      by (destruct ep; (now left) || (right; discriminate)).
    destruct Hdec as [-> | Hep].
    + cbn [view_function]. rewrite views_api_files.
      destruct (increment_touches_counter_only os_error fs) as (file & Hs & Hn).
      exists file. repeat split; auto. intros H. now elim H.
    + exists (views_file fs). rewrite (other_views_keep_files ep os_error fs r Hep).
      now rewrite set_views_file_same.
  - exists (views_file fs). cbn [page_not_found snd].
    now rewrite set_views_file_same.
Qed.

(** X12.  Requests write to one file at most: whatever the request, the
    honour, goodbyes and diary files are as before; only a request routed
    to the views endpoint can change the counter file; and no request
    creates a counter file that is missing. *)
Theorem X12_only_the_views_endpoint_writes (os_error : bool) (fs : filesystem)
  (r : request) :
  honour_file (snd (handle_request os_error fs r)) = honour_file fs
  /\ goodbyes_file (snd (handle_request os_error fs r)) = goodbyes_file fs
  /\ diary_listdir (snd (handle_request os_error fs r)) = diary_listdir fs
  /\ diary_read (snd (handle_request os_error fs r)) = diary_read fs
  /\ (url_match (path r) <> Some ep_views_api ->
      snd (handle_request os_error fs r) = fs)
  /\ (views_file fs = None -> snd (handle_request os_error fs r) = fs).
Proof.
  destruct (handled_files os_error fs r) as (file & -> & Hnone & Hother).
  repeat split.
  - intros H. rewrite (Hother H). apply set_views_file_same.
  - intros H. rewrite (Hnone H), <- H. apply set_views_file_same.
Qed.





(** X16.  A request routed to the views endpoint, with the open granted
    and the file holding the counter document of a non-negative [n], is
    answered with the JSON body [{"total_views": n + 1}], leaves the
    counter document of [n + 1] in the file and logs the action only. *)
Theorem X16_views_endpoint_answers_the_new_count (fs : filesystem) (r : request)
  (n : Z) :
  counter_round_trip -> (0 <= n)%Z ->
  url_match (path r) = Some ep_views_api ->
  views_file fs = Some (json_dumps (counter_doc n)) ->
  handle_request false fs r
  = (jsonify (counter_doc (n + 1)),
     log_action "Viewed /api/views" r,
     set_views_file fs (Some (json_dumps (counter_doc (n + 1))))).
Proof.
  intros Hrt Hn Hroute Hf. unfold handle_request. rewrite Hroute.
  cbn [view_function]. unfold views_api.
  now rewrite (increment_granted fs n Hrt Hn Hf).
Qed.

(** ** The console formatter *)

Lemma append_cancel_left (p a b : string) :
  (p ++ a)%string = (p ++ b)%string -> a = b.
Proof. induction p as [|c p IH]; simpl; [auto|]. intros [= H]. auto. Qed.

Lemma append_cancel_right (a b q : string) :
  (a ++ q)%string = (b ++ q)%string -> a = b.
Proof.
  revert b. induction a as [|c a IH]; intros [|d b] H; simpl in H.
  - reflexivity.
  - apply (f_equal String.length) in H. simpl in H.
    rewrite length_append in H. lia.
  - apply (f_equal String.length) in H. simpl in H.
    rewrite length_append in H. lia.
  - injection H as -> H. f_equal. now apply IH.
Qed.

(** X15.  The console line of a record is its file line, wrapped between
    a colour code and the reset code when the level is INFO (cyan),
    WARNING (yellow) or ERROR (red), and unchanged at every other level;
    so two records of one level that differ in the file differ on the
    console. *)
Theorem X15_console_line_wraps_file_line (record : LogRecord) :
  ((levelno record = logging_INFO
    /\ ColorFormatter_format record
       = (Fore_CYAN ++ Formatter_format record ++ Style_RESET_ALL)%string)
   \/ (levelno record = logging_WARNING
       /\ ColorFormatter_format record
          = (Fore_YELLOW ++ Formatter_format record ++ Style_RESET_ALL)%string)
   \/ (levelno record = logging_ERROR
       /\ ColorFormatter_format record
          = (Fore_RED ++ Formatter_format record ++ Style_RESET_ALL)%string)
   \/ (levelno record <> logging_INFO /\ levelno record <> logging_WARNING
       /\ levelno record <> logging_ERROR
       /\ ColorFormatter_format record = Formatter_format record))
  /\ (forall other,
         levelno other = levelno record ->
         ColorFormatter_format other = ColorFormatter_format record ->
         Formatter_format other = Formatter_format record).
Proof.
  split.
  - unfold ColorFormatter_format.
    destruct (Z.eqb_spec (levelno record) logging_INFO) as [H1|H1]; [now left|].
    destruct (Z.eqb_spec (levelno record) logging_WARNING) as [H2|H2];
      [right; now left|].
    destruct (Z.eqb_spec (levelno record) logging_ERROR) as [H3|H3];
      [right; right; now left|].
    right; right; right. auto.
  - intros other Hl. unfold ColorFormatter_format. rewrite Hl.
    destruct (levelno record =? logging_INFO)%Z;
      [|destruct (levelno record =? logging_WARNING)%Z;
        [|destruct (levelno record =? logging_ERROR)%Z]];
      intros H; auto;
      apply append_cancel_left in H; now apply append_cancel_right in H.
Qed.

End Site.

(* ================================================================== *)
(** * The model on concrete inputs *)

(** ** The counter codec loads back what it dumps *)

Lemma chop_append (last : ascii) (s : string) :
  CounterCodec.chop last (s ++ String last EmptyString) = Some s.
Proof.
  induction s as [|c s IH]; simpl.
  - now rewrite Ascii.eqb_refl.
  - rewrite IH. now destruct s.
Qed.

Lemma to_int_printable (n : Z) :
  NilZero.int_of_string (NilZero.string_of_int (Z.to_int n)) = Some (Z.to_int n).
Proof.
  apply NilZero.isi; destruct n as [|p|p]; simpl; try discriminate;
    intros [= H]; now apply (DecimalPos.Unsigned.to_uint_nonnil p).
Qed.

Lemma counter_codec_round_trip :
  counter_round_trip CounterCodec.loads CounterCodec.dumps.
Proof.
  intros n _. unfold CounterCodec.loads, counter_doc, CounterCodec.dumps.
  cbn [CounterCodec.opening CounterCodec.quote append CounterCodec.strip_prefix].
  rewrite !Ascii.eqb_refl.
  rewrite chop_append, to_int_printable. unfold counter_doc.
  now rewrite DecimalZ.of_to.
Qed.

(** ** IP attribution on sample requests *)

(** C1, as worded, fails: [172.32.0.1] is outside 172.16-31 and so is not
    of a listed private form, yet the code skips it and selects the next
    entry. *)
Lemma C1_counterexample :
  ip_chain via_172_32 = ["172.32.0.1"; " 8.8.8.8"]
  /\ spec_private_form "172.32.0.1" = false
  /\ skipped "172.32.0.1" = true
  /\ spec_public_ip via_172_32 = Some "172.32.0.1"
  /\ public_ip via_172_32 = Some "8.8.8.8"
  /\ public_ip via_172_32 <> spec_public_ip via_172_32.
Proof. repeat split. discriminate. Qed.

Lemma C1_witness :
  x_forwarded_for via_private_hop = Some "10.0.0.5, 8.8.8.8"
  /\ "10.0.0.5, 8.8.8.8" <> ""
  /\ ip_chain via_private_hop = PyStr.split "," "10.0.0.5, 8.8.8.8"
  /\ x_forwarded_for direct_peer = None
  /\ ip_chain direct_peer = [].
Proof.
  split; [reflexivity|]. split; [discriminate|]. split.
  - exact (proj1 (proj2 (C1_first_unskipped_entry via_private_hop))
             "10.0.0.5, 8.8.8.8" eq_refl ltac:(discriminate)).
  - split; [reflexivity|].
    exact (proj1 (proj2 (proj2 (C1_first_unskipped_entry direct_peer)))
             (or_introl eq_refl)).
Defined.

(** C3, as worded, fails: the edge-proxy header is present (with an empty
    value), yet the logged IP is the forwarded-for entry, not the header's
    value. *)
Lemma C3_counterexample :
  cf_ip empty_edge_header = Some ""
  /\ spec_real_ip empty_edge_header = Some ""
  /\ real_ip empty_edge_header = Some "8.8.8.8"
  /\ real_ip empty_edge_header <> spec_real_ip empty_edge_header.
Proof. repeat split. discriminate. Qed.

Lemma C3_witness :
  (cf_ip via_edge_proxy = Some "198.51.100.7" /\ "198.51.100.7" <> ""
   /\ real_ip via_edge_proxy = Some "198.51.100.7")
  /\ (cf_ip via_private_hop = None
      /\ public_ip via_private_hop = Some "8.8.8.8" /\ "8.8.8.8" <> ""
      /\ real_ip via_private_hop = Some "8.8.8.8")
  /\ (cf_ip direct_peer = None /\ public_ip direct_peer = None
      /\ real_ip direct_peer = remote_addr direct_peer).
Proof.
  split; [|split].
  - split; [reflexivity|]. split; [discriminate|].
    exact (proj1 (C3_resolution_order via_edge_proxy) "198.51.100.7" eq_refl
             ltac:(discriminate)).
  - split; [reflexivity|]. split; [reflexivity|]. split; [discriminate|].
    exact (proj1 (proj2 (C3_resolution_order via_private_hop))
             (or_introl eq_refl) "8.8.8.8" eq_refl ltac:(discriminate)).
  - split; [reflexivity|]. split; [reflexivity|].
    exact (proj1 (proj2 (proj2 (C3_resolution_order direct_peer)))
             (or_introl eq_refl) (or_introl eq_refl)).
Defined.

Lemma C9_witness :
  (cf_ip empty_edge_header = Some ""
   /\ real_ip empty_edge_header
      = real_ip (without_header "CF-Connecting-IP" empty_edge_header)
   /\ real_ip empty_edge_header = Some "8.8.8.8")
  /\ (cf_ip empty_first_entry = Some ""
      /\ public_ip empty_first_entry = Some ""
      /\ real_ip empty_first_entry = remote_addr empty_first_entry).
Proof.
  split.
  - split; [reflexivity|].
    exact (proj1 (C9_empty_signals_fall_through empty_edge_header) eq_refl).
  - split; [reflexivity|]. split; [reflexivity|].
    exact (proj2 (C9_empty_signals_fall_through empty_first_entry)
             (or_intror eq_refl) eq_refl).
Defined.

(** ** The view counter on sample files *)

Lemma C4_witness :
  counter_round_trip CounterCodec.loads CounterCodec.dumps
  /\ views_file no_files = None
  /\ stored_total_views CounterCodec.loads
       (snd (run_views CounterCodec.loads CounterCodec.dumps
               [false; true; false] (startup CounterCodec.dumps no_files)))
     = Some (JInt (completions
                     (fst (run_views CounterCodec.loads CounterCodec.dumps
                             [false; true; false]
                             (startup CounterCodec.dumps no_files))))).
Proof.
  split; [exact counter_codec_round_trip|]. split; [reflexivity|].
  exact (proj1 (proj2 (C4_counter_counts_completions CounterCodec.loads
                         CounterCodec.dumps no_files counter_codec_round_trip
                         eq_refl))
           [false; true; false]).
Defined.

Lemma C5_witness :
  (get_and_increment_views CounterCodec.loads CounterCodec.dumps false fresh_site
   = (JInt 1, [],
      set_views_file fresh_site (Some (CounterCodec.dumps (counter_doc 1))))
   /\ exists text members v,
        views_file fresh_site = Some text
        /\ CounterCodec.loads text = Some (JObj members)
        /\ dict_get members "total_views" = Some v
        /\ add_one v = inr (JInt 1)
        /\ (forall n, v = JInt n -> JInt 1 = JInt (n + 1))
        /\ set_views_file fresh_site (Some (CounterCodec.dumps (counter_doc 1)))
           = set_views_file fresh_site
               (Some (CounterCodec.dumps
                        (JObj (dict_set members "total_views" (JInt 1))))))
  /\ (views_file fresh_site = Some (CounterCodec.dumps (counter_doc 0))
      /\ CounterCodec.loads (CounterCodec.dumps (counter_doc 0))
         = Some (counter_doc 0)
      /\ get_and_increment_views CounterCodec.loads CounterCodec.dumps false
           fresh_site
         = (JInt (0 + 1), [],
            set_views_file fresh_site
              (Some (CounterCodec.dumps
                       (JObj (dict_set [("total_views", JInt 0)] "total_views"
                                (JInt (0 + 1)))))))).
Proof.
  split.
  - split; [reflexivity|].
    exact (proj1 (C5_increment_success CounterCodec.loads CounterCodec.dumps
                    false fresh_site)
             (JInt 1)
             (set_views_file fresh_site
                (Some (CounterCodec.dumps (counter_doc 1))))
             eq_refl).
  - split; [reflexivity|]. split; [reflexivity|].
    exact (proj2 (C5_increment_success CounterCodec.loads CounterCodec.dumps
                    false fresh_site)
             (CounterCodec.dumps (counter_doc 0)) [("total_views", JInt 0)] 0%Z
             eq_refl eq_refl eq_refl eq_refl).
Defined.

Lemma C6_witness :
  increment_fails CounterCodec.loads false no_files FileNotFoundError
  /\ get_and_increment_views CounterCodec.loads CounterCodec.dumps false no_files
     = (JInt (-1), [ERROR "Error updating views: " FileNotFoundError], no_files)
  /\ views_api CounterCodec.loads CounterCodec.dumps false no_files direct_peer
     = (jsonify (counter_doc (-1)),
        ERROR "Error updating views: " FileNotFoundError
          :: log_action "Viewed /api/views" direct_peer,
        no_files).
Proof.
  split; [apply fails_missing; reflexivity|].
  exact (C6_failure_returns_sentinel CounterCodec.loads CounterCodec.dumps
           false no_files FileNotFoundError direct_peer
           (fails_missing CounterCodec.loads false no_files eq_refl)).
Defined.

Lemma C10_witness :
  get_and_increment_views CounterCodec.loads CounterCodec.dumps true fresh_site
  = (JInt (-1), [ERROR "Error updating views: " OSError], fresh_site)
  /\ exists e,
       increment_fails CounterCodec.loads true fresh_site e
       /\ ERROR "Error updating views: " OSError = ERROR "Error updating views: " e
       /\ @nil log_record = [].
Proof.
  split; [reflexivity|].
  exact (proj2 (proj2 (proj2
           (C10_failure_leaves_file_unchanged CounterCodec.loads CounterCodec.dumps
              true fresh_site fresh_site (JInt (-1))
              (ERROR "Error updating views: " OSError) [] eq_refl)))).
Defined.

(** ** The diary listing and the 404 handler on sample inputs *)

Lemma C7_witness :
  (exists names f,
      diary_listdir unreadable_diary = Some names /\ In f names
      /\ PyStr.endswith f ".md" = true /\ diary_read unreadable_diary f = None)
  /\ diaries_page paragraph unreadable_diary direct_peer
     = (abort 500, [ERROR "Error loading diaries: " OSError], unreadable_diary).
Proof.
  assert (H : exists names f,
             diary_listdir unreadable_diary = Some names /\ In f names
             /\ PyStr.endswith f ".md" = true
             /\ diary_read unreadable_diary f = None).
  { exists ["2024-01-01.md"; "notes.txt"; "2024-02-01.md"], "2024-01-01.md".
    repeat split. now left. }
  split; [exact H|].
  exact (proj1 (C7_diary_failure_aborts paragraph unreadable_diary direct_peer)
           (or_intror H)).
Defined.

Lemma C8_witness :
  exact_match url_map (path unknown_path) = None
  /\ handle_request CounterCodec.loads CounterCodec.dumps paragraph
       (exact_match url_map) false fresh_site unknown_path
     = (redirect "/",
        [INFO "404 Redirect | Real IP: 203.0.113.9, CF-IP: None, XFF: None, Remote: 203.0.113.9"],
        fresh_site).
Proof.
  split; [reflexivity|].
  exact (proj1 (C8_unmatched_path_redirects_home CounterCodec.loads
                  CounterCodec.dumps paragraph (exact_match url_map)
                  false fresh_site unknown_path eq_refl)).
Defined.

(** The specification's own examples. *)
Example diary_order_example :
  diaries_page paragraph fresh_site direct_peer
  = (render_template "diaries.html"
       (entries_diary
          [mkEntry "2024-02-01" "<p># 2024-02-01.md</p>";
           mkEntry "2024-01-01" "<p># 2024-01-01.md</p>"]),
     log_action "Viewed Diaries Page" direct_peer, fresh_site).
Proof. reflexivity. Qed.

Example counter_deleted_example :
  views_api CounterCodec.loads CounterCodec.dumps false no_files direct_peer
  = (jsonify (counter_doc (-1)),
     [ERROR "Error updating views: " FileNotFoundError;
      INFO "Viewed /api/views | Real IP: 203.0.113.9, CF-IP: None, XFF: None, Remote: 203.0.113.9"],
     no_files).
Proof. reflexivity. Qed.

Example three_hits_example :
  run_views CounterCodec.loads CounterCodec.dumps [false; false; false] fresh_site
  = ([(JInt 1, []); (JInt 2, []); (JInt 3, [])],
     set_views_file fresh_site (Some (CounterCodec.dumps (counter_doc 3)))).
Proof. reflexivity. Qed.

(** A float counter is incremented in binary64 arithmetic: at 2^53 adding
    one changes nothing. *)
Example float_counter_saturates :
  add_one (JFloat 9007199254740992%float) = inr (JFloat 9007199254740992%float).
Proof. reflexivity. Qed.

(** ** Further properties on sample inputs *)

Lemma X1_witness :
  public_ip via_private_hop = Some "8.8.8.8"
  /\ PyStr.strip "8.8.8.8" = "8.8.8.8"
  /\ PyStr.startswith "8.8.8.8" private_prefixes = false
  /\ occurs "," "8.8.8.8" = false.
Proof.
  split; [reflexivity|].
  exact (X1_public_ip_is_trimmed_and_public via_private_hop "8.8.8.8" eq_refl).
Defined.

Lemma X2_witness :
  x_forwarded_for via_private_hop = Some "10.0.0.5, 8.8.8.8"
  /\ "10.0.0.5, 8.8.8.8" <> ""
  /\ join "," (ip_chain via_private_hop) = "10.0.0.5, 8.8.8.8"
  /\ List.length (ip_chain via_private_hop) = S (count_char "," "10.0.0.5, 8.8.8.8").
Proof.
  split; [reflexivity|]. split; [discriminate|].
  exact (X2_ip_chain_joins_back via_private_hop "10.0.0.5, 8.8.8.8" eq_refl
           ltac:(discriminate)).
Defined.

Lemma X3_witness :
  real_ip empty_first_entry = Some "127.0.0.1"
  /\ (real_ip (request_from None None (Some "")) = Some ""
      /\ remote_addr (request_from None None (Some "")) = Some "").
Proof.
  split; [reflexivity|]. split; [reflexivity|].
  exact (proj2 (proj2 (X3_real_ip_is_one_of_the_signals
                         (request_from None None (Some "")))) eq_refl).
Defined.

Lemma X4_witness :
  get_and_increment_views CounterCodec.loads CounterCodec.dumps false fresh_site
  = (JInt 1, [],
     set_views_file fresh_site (Some (CounterCodec.dumps (counter_doc 1))))
  /\ exists text members members',
       views_file fresh_site = Some text
       /\ CounterCodec.loads text = Some (JObj members)
       /\ views_file (set_views_file fresh_site
                        (Some (CounterCodec.dumps (counter_doc 1))))
          = Some (CounterCodec.dumps (JObj members'))
       /\ map fst members' = map fst members
       /\ dict_get members' "total_views" = Some (JInt 1)
       /\ (forall k, k <> "total_views" -> dict_get members' k = dict_get members k)
       /\ honour_file (set_views_file fresh_site
                         (Some (CounterCodec.dumps (counter_doc 1))))
          = honour_file fresh_site
       /\ goodbyes_file (set_views_file fresh_site
                           (Some (CounterCodec.dumps (counter_doc 1))))
          = goodbyes_file fresh_site
       /\ diary_listdir (set_views_file fresh_site
                           (Some (CounterCodec.dumps (counter_doc 1))))
          = diary_listdir fresh_site
       /\ diary_read (set_views_file fresh_site
                        (Some (CounterCodec.dumps (counter_doc 1))))
          = diary_read fresh_site.
Proof.
  split; [reflexivity|].
  exact (X4_increment_keeps_other_members CounterCodec.loads CounterCodec.dumps
           false fresh_site
           (set_views_file fresh_site (Some (CounterCodec.dumps (counter_doc 1))))
           (JInt 1) eq_refl).
Defined.

Lemma X5_witness :
  increment_fails CounterCodec.loads false corrupt_counter JSONDecodeError
  /\ snd (run_views CounterCodec.loads CounterCodec.dumps [false; true; false]
            corrupt_counter)
     = corrupt_counter
  /\ Forall (fun result => fst result = JInt (-1) /\ completed result = false)
       (fst (run_views CounterCodec.loads CounterCodec.dumps [false; true; false]
               corrupt_counter)).
Proof.
  assert (H : increment_fails CounterCodec.loads false corrupt_counter
                JSONDecodeError)
    by (apply (fails_parse CounterCodec.loads false corrupt_counter "{oops");
        reflexivity).
  split; [exact H|].
  exact (X5_failure_is_absorbing CounterCodec.loads CounterCodec.dumps
           corrupt_counter JSONDecodeError [false; true; false] H).
Defined.

Lemma X7_witness :
  counter_round_trip CounterCodec.loads CounterCodec.dumps
  /\ (0 <= 41)%Z
  /\ views_file counter_at_41 = Some (CounterCodec.dumps (counter_doc 41))
  /\ stored_total_views CounterCodec.loads
       (snd (run_views CounterCodec.loads CounterCodec.dumps [false; true; false]
               (startup CounterCodec.dumps counter_at_41)))
     = Some (JInt (41 + completions
                          (fst (run_views CounterCodec.loads CounterCodec.dumps
                                  [false; true; false]
                                  (startup CounterCodec.dumps counter_at_41))))).
Proof.
  split; [exact counter_codec_round_trip|]. split; [lia|]. split; [reflexivity|].
  exact (proj2 (X7_counter_resumes_after_restart CounterCodec.loads
                  CounterCodec.dumps counter_at_41 41 [false; true; false]
                  counter_codec_round_trip ltac:(lia) eq_refl)).
Defined.

Lemma X6_witness :
  views_file corrupt_counter = Some "{oops"
  /\ views_file (startup CounterCodec.dumps corrupt_counter) = Some "{oops".
Proof.
  split; [reflexivity|].
  exact (proj1 (proj2 (proj2 (X6_startup_creates_only_missing_files
                                CounterCodec.dumps corrupt_counter)))
           "{oops" eq_refl).
Defined.

Lemma X8_witness :
  diary_listdir fresh_site = Some ["2024-01-01.md"; "notes.txt"; "2024-02-01.md"]
  /\ diary_listdir listed_otherwise
     = Some ["2024-02-01.md"; "2024-01-01.md"; "notes.txt"]
  /\ Permutation ["2024-01-01.md"; "notes.txt"; "2024-02-01.md"]
       ["2024-02-01.md"; "2024-01-01.md"; "notes.txt"]
  /\ (forall f, is_markdown f = true ->
                diary_read listed_otherwise f = diary_read fresh_site f)
  /\ fst (diaries_page paragraph listed_otherwise direct_peer)
     = fst (diaries_page paragraph fresh_site direct_peer).
Proof.
  assert (Hp : Permutation ["2024-01-01.md"; "notes.txt"; "2024-02-01.md"]
                 ["2024-02-01.md"; "2024-01-01.md"; "notes.txt"]).
  { apply Permutation_sym, (Permutation_cons_app ["2024-01-01.md"; "notes.txt"] []).
    apply Permutation_refl. }
  assert (Hsame : forall f, is_markdown f = true ->
                    diary_read listed_otherwise f = diary_read fresh_site f).
  { intros f Hf. unfold listed_otherwise, fresh_site. cbn [diary_read].
    destruct (String.eqb f "notes.txt") eqn:E; [|reflexivity].
    apply String.eqb_eq in E. subst f. discriminate. }
  split; [reflexivity|]. split; [reflexivity|]. split; [exact Hp|].
  split; [exact Hsame|].
  exact (X8_diaries_page_ignores_order_and_other_files paragraph
           fresh_site listed_otherwise direct_peer _ _ eq_refl eq_refl Hp Hsame).
Defined.

Lemma X9_witness :
  diary_listdir fresh_site = Some ["2024-01-01.md"; "notes.txt"; "2024-02-01.md"]
  /\ (forall f, In f ["2024-01-01.md"; "notes.txt"; "2024-02-01.md"] ->
                is_markdown f = true -> diary_read fresh_site f <> None)
  /\ exists listed entries,
       diaries_page paragraph fresh_site direct_peer
       = (render_template "diaries.html" (entries_diary entries),
          log_action "Viewed Diaries Page" direct_peer, fresh_site)
       /\ Forall2 (entry_for paragraph fresh_site) listed entries
       /\ Permutation
            (filter is_markdown ["2024-01-01.md"; "notes.txt"; "2024-02-01.md"])
            listed
       /\ StronglySorted (fun a b => String.leb b a = true) listed
       /\ (forall f, In f listed <->
                     In f ["2024-01-01.md"; "notes.txt"; "2024-02-01.md"]
                     /\ exists stem, f = (stem ++ ".md")%string)
       /\ List.length entries
          = List.length
              (filter is_markdown ["2024-01-01.md"; "notes.txt"; "2024-02-01.md"]).
Proof.
  assert (Hread : forall f, In f ["2024-01-01.md"; "notes.txt"; "2024-02-01.md"] ->
                    is_markdown f = true -> diary_read fresh_site f <> None)
    by (intros f _ _; discriminate).
  split; [reflexivity|]. split; [exact Hread|].
  exact (X9_diaries_page_lists_markdown_descending paragraph fresh_site
           direct_peer _ eq_refl Hread).
Defined.

Lemma X10_witness :
  occurs "." "2024-01-01" = false
  /\ PyStr.replace "2024-01-01.md" ".md" "" = "2024-01-01".
Proof.
  split; [reflexivity|].
  exact (X10_title_of_dotless_stem "2024-01-01" eq_refl).
Defined.

Lemma X11_witness :
  (honour_file fresh_site = Some "[]"
   /\ CounterCodec.loads "[]" = Some (JArr [])
   /\ honour_wall CounterCodec.loads fresh_site direct_peer
      = (render_template "honour.html" (entries_json (JArr [])),
         log_action "Viewed Honour Wall" direct_peer, fresh_site))
  /\ (goodbyes_file no_files = None
      /\ exists e,
           goodbyes_page CounterCodec.loads no_files direct_peer
           = (render_template "goodbyes.html" (entries_json (JArr [])),
              ERROR "Error loading goodbyes.json: " e
                :: log_action "Viewed Goodbyes Page" direct_peer, no_files)).
Proof.
  split.
  - split; [reflexivity|]. split; [reflexivity|].
    exact (proj1 (X11_json_pages_degrade_to_empty_list CounterCodec.loads
                    fresh_site direct_peer) "[]" (JArr []) eq_refl eq_refl).
  - split; [reflexivity|].
    exact (proj2 (proj2 (proj2 (X11_json_pages_degrade_to_empty_list
                                  CounterCodec.loads no_files direct_peer)))
             (or_introl eq_refl)).
Defined.

Lemma X12_witness :
  (exact_match url_map (path direct_peer) <> Some ep_views_api
   /\ snd (handle_request CounterCodec.loads CounterCodec.dumps paragraph
             (exact_match url_map) false fresh_site direct_peer)
      = fresh_site)
  /\ (views_file no_files = None
      /\ snd (handle_request CounterCodec.loads CounterCodec.dumps paragraph
                (exact_match url_map) false no_files views_request)
         = no_files).
Proof.
  split.
  - assert (H : exact_match url_map (path direct_peer) <> Some ep_views_api)
      by discriminate.
    split; [exact H|].
    exact (proj1 (proj2 (proj2 (proj2 (proj2
             (X12_only_the_views_endpoint_writes CounterCodec.loads
                CounterCodec.dumps paragraph (exact_match url_map) false
                fresh_site direct_peer))))) H).
  - split; [reflexivity|].
    exact (proj2 (proj2 (proj2 (proj2 (proj2
             (X12_only_the_views_endpoint_writes CounterCodec.loads
                CounterCodec.dumps paragraph (exact_match url_map) false
                no_files views_request))))) eq_refl).
Defined.


Lemma X15_witness :
  levelno page_view_record = levelno page_view_record
  /\ ColorFormatter_format ansi_cyan ansi_yellow ansi_red ansi_reset page_view_record
     = (ansi_cyan ++ "2024-02-01 10:00:00,000 [INFO] Viewed Home Page"
        ++ ansi_reset)%string
  /\ Formatter_format page_view_record = Formatter_format page_view_record.
Proof.
  split; [reflexivity|]. split; [reflexivity|].
  exact (proj2 (X15_console_line_wraps_file_line ansi_cyan ansi_yellow ansi_red
                  ansi_reset page_view_record)
           page_view_record eq_refl eq_refl).
Defined.

Lemma X16_witness :
  counter_round_trip CounterCodec.loads CounterCodec.dumps
  /\ (0 <= 41)%Z
  /\ exact_match url_map (path views_request) = Some ep_views_api
  /\ views_file counter_at_41 = Some (CounterCodec.dumps (counter_doc 41))
  /\ handle_request CounterCodec.loads CounterCodec.dumps paragraph
       (exact_match url_map) false counter_at_41 views_request
     = (jsonify (counter_doc (41 + 1)),
        log_action "Viewed /api/views" views_request,
        set_views_file counter_at_41
          (Some (CounterCodec.dumps (counter_doc (41 + 1))))).
Proof.
  split; [exact counter_codec_round_trip|]. split; [lia|].
  split; [reflexivity|]. split; [reflexivity|].
  exact (X16_views_endpoint_answers_the_new_count CounterCodec.loads
           CounterCodec.dumps paragraph (exact_match url_map) counter_at_41
           views_request 41 counter_codec_round_trip ltac:(lia) eq_refl eq_refl).
Defined.
